(** * hooks/socialmedia.py: the LinkedIn share button and Open Graph hooks

    A shallow embedding of the two MkDocs hooks [on_page_content] and
    [on_post_page] of [hooks/socialmedia.py], and the properties of them
    that the specification states.

    Conventions of the embedding.
    - A Python [str] is a [string]: the sequence of the bytes of its UTF-8
      encoding.  Every pattern the hooks search for or strip is ASCII, so
      [startswith], [rstrip], [lstrip], [in] and [replace] act on the bytes
      as they act on the code points, and [quote], which encodes its
      argument to UTF-8 first, is the byte-wise [quote_from_bytes].
    - A value that Python leaves untyped (a configuration entry, the page
      title, a front-matter entry) is a [pyval]: [None] or a [str].
    - A dictionary is a [gmap string pyval]; an attribute that may not exist
      ([page.meta], tested with [hasattr]) is an [option].
    - A hook returns in the monad [M]: a result or a raised exception,
      together with the lines written to the logger. *)

From Stdlib Require Import String Ascii List Arith Lia Bool.
From stdpp Require Import base option gmap strings.

Local Open Scope string_scope.

(** ** Strings *)

Module Str.

(** The double quote and the line feed, which the templates contain. *)
Definition dq : string := String "034"%char EmptyString.
Definition nl : string := String "010"%char EmptyString.

(** [c in chars], for a character and a string used as a set. *)
Fixpoint mem (c : ascii) (chars : string) : bool :=
  match chars with
  | EmptyString => false
  | String d chars' => Ascii.eqb c d || mem c chars'
  end.

(** [s.startswith(p)] *)
Definition startswith (s p : string) : bool := String.prefix p s.

(** [s.lstrip(chars)]: drop the leading characters that are in [chars]. *)
Fixpoint lstrip (s chars : string) : string :=
  match s with
  | EmptyString => EmptyString
  | String c s' => if mem c chars then lstrip s' chars else s
  end.

(** [s.rstrip(chars)]: drop the trailing characters that are in [chars]. *)
Fixpoint rstrip (s chars : string) : string :=
  match s with
  | EmptyString => EmptyString
  | String c s' =>
      match rstrip s' chars with
      | EmptyString => if mem c chars then EmptyString else String c EmptyString
      | r => String c r
      end
  end.

(** [s[n:]] *)
Fixpoint drop (n : nat) (s : string) : string :=
  match n, s with
  | O, _ => s
  | S _, EmptyString => EmptyString
  | S n', String _ s' => drop n' s'
  end.

(** [sub in s] *)
Fixpoint contains (sub s : string) : bool :=
  String.prefix sub s ||
  match s with
  | EmptyString => false
  | String _ s' => contains sub s'
  end.

(** [s.replace(old, new, 1)]: the leftmost occurrence of [old] is replaced,
    the text after it is copied as it is. *)
Fixpoint replace_first (s old new : string) : string :=
  if String.prefix old s then new +:+ drop (String.length old) s
  else match s with
       | EmptyString => EmptyString
       | String c s' => String c (replace_first s' old new)
       end.

(** [bool(s)]: a string is true when it is not empty. *)
Definition nonempty (s : string) : bool :=
  match s with EmptyString => false | String _ _ => true end.

End Str.

(** ** urllib.parse: percent-encoding *)

Module Urllib.

(** [_ALWAYS_SAFE]: the unreserved characters of RFC 3986. *)
Definition ALWAYS_SAFE : string :=
  "ABCDEFGHIJKLMNOPQRSTUVWXYZabcdefghijklmnopqrstuvwxyz0123456789_.-~".

(** The sixteen digits of ['{:02X}']. *)
Definition hex_digit (n : N) : ascii :=
  match n with
  | 0 => "0" | 1 => "1" | 2 => "2" | 3 => "3" | 4 => "4" | 5 => "5"
  | 6 => "6" | 7 => "7" | 8 => "8" | 9 => "9" | 10 => "A" | 11 => "B"
  | 12 => "C" | 13 => "D" | 14 => "E" | _ => "F"
  end%N%char.

(** ['%{:02X}'.format(b)] *)
Definition percent (c : ascii) : string :=
  let b := N_of_ascii c in
  String "%" (String (hex_digit (b / 16)) (String (hex_digit (b mod 16)) EmptyString)).

(** The characters of [safe] that [quote_from_bytes] keeps: it drops the
    ones that are not ASCII. *)
Fixpoint ascii_only (safe : string) : string :=
  match safe with
  | EmptyString => EmptyString
  | String c safe' =>
      if (N_of_ascii c <? 128)%N then String c (ascii_only safe') else ascii_only safe'
  end.

(** The quoter of one byte: itself when it is safe, its escape otherwise. *)
Definition quoter (safe : string) (c : ascii) : string :=
  if Str.mem c (ALWAYS_SAFE +:+ ascii_only safe) then String c EmptyString else percent c.

(** [quote(string, safe=safe)] on the UTF-8 bytes of [string]. *)
Fixpoint quote (s safe : string) : string :=
  match s with
  | EmptyString => EmptyString
  | String c s' => quoter safe c +:+ quote s' safe
  end.

(** The position of a character in a string. *)
Fixpoint position (c : ascii) (s : string) : option N :=
  match s with
  | EmptyString => None
  | String d s' => if Ascii.eqb c d then Some 0%N else N.succ <$> position c s'
  end.

(** The value of a hexadecimal digit, of either case: [_hextobyte] has an
    entry for every pair of characters of ['0123456789ABCDEFabcdef']. *)
Definition hex_value (c : ascii) : option N :=
  match position c "0123456789ABCDEF" with
  | Some n => Some n
  | None => position c "0123456789abcdef"
  end.

(** [unquote_to_bytes]: the percent-decoding that is the inverse of
    [quote].  A ['%'] followed by two hexadecimal digits is the byte they
    denote; any other ['%'] stands for itself. *)
Fixpoint unquote (s : string) : string :=
  match s with
  | EmptyString => EmptyString
  | String c t =>
      let keep := String c (unquote t) in
      if Ascii.eqb c "%" then
        match t with
        | String h (String l rest) =>
            match hex_value h, hex_value l with
            | Some a, Some b => String (ascii_of_N (16 * a + b)) (unquote rest)
            | _, _ => keep
            end
        | _ => keep
        end
      else keep
  end.

(** The reserved characters of RFC 3986: gen-delims and sub-delims. *)
Definition RESERVED : string := ":/?#[]@!$&'()*+,;=".

End Urllib.

(** ** Python values, dictionaries, exceptions and the logger *)

Module Py.

(** A dynamically typed value: [None] or a [str]. *)
Inductive pyval : Type :=
| PyNone
| PyStr (s : string).

(** [bool(v)]: [None] and the empty string are false. *)
Definition truthy (v : pyval) : bool :=
  match v with
  | PyNone => false
  | PyStr s => Str.nonempty s
  end.

(** [a or b] *)
Definition or (a b : pyval) : pyval := if truthy a then a else b.

(** The text an f-string puts for [{v}]: [str(v)], with no escaping. *)
Definition format_value (v : pyval) : string :=
  match v with
  | PyNone => "None"
  | PyStr s => s
  end.

(** [d.get(key, default)] *)
Definition get (d : gmap string pyval) (key : string) (default : pyval) : pyval :=
  match d !! key with
  | Some v => v
  | None => default
  end.

(** [bool(d)]: a dictionary is true when it has an entry. *)
Definition dict_truthy (d : gmap string pyval) : bool := negb (bool_decide (d = ∅)).

(** The exceptions the hooks can raise: a [str] method looked up on
    [None]. *)
Inductive exn : Type :=
| AttributeError (attribute : string).

Inductive result (A : Type) : Type :=
| Ok (a : A)
| Raise (e : exn).
Arguments Ok {A} a.
Arguments Raise {A} e.

(** A computation: its result, and the lines it wrote with [log.info]. *)
Definition M (A : Type) : Type := result A * list string.

Definition ret {A} (a : A) : M A := (Ok a, []).
Definition raise {A} (e : exn) : M A := (Raise e, []).
Definition bind {A B} (m : M A) (k : A -> M B) : M B :=
  match m with
  | (Ok a, l) => let (r, l') := k a in (r, (l ++ l')%list)
  | (Raise e, l) => (Raise e, l)
  end.

(** [log.info(line)] *)
Definition log_info (line : string) : M unit := (Ok tt, [line]).

(** [v.rstrip(chars)]: [None] has no such method. *)
Definition rstrip (v : pyval) (chars : string) : M string :=
  match v with
  | PyStr s => ret (Str.rstrip s chars)
  | PyNone => raise (AttributeError "rstrip")
  end.

End Py.

Export Py(pyval, PyNone, PyStr, Ok, Raise, AttributeError).

Notation "'let*' x ':=' m 'in' k" := (Py.bind m (fun x => k))
  (at level 10, x name, m at level 100, k at level 200).

(** ** The data the host passes to the hooks *)

(** [page.file] *)
Record File : Type := {
  src_uri : string
}.

(** The page object.  [meta] is [None] when the object has no such
    attribute. *)
Record Page : Type := {
  file : File;
  url : string;
  title : pyval;
  meta : option (gmap string pyval)
}.

(** [hasattr(page, "meta") and page.meta], as a condition. *)
Definition has_meta (page : Page) : bool :=
  match meta page with
  | Some m => Py.dict_truthy m
  | None => false
  end.

(** [page.meta.get(key, default)], where [has_meta] holds. *)
Definition meta_get (page : Page) (key : string) (default : pyval) : pyval :=
  match meta page with
  | Some m => Py.get m key default
  | None => default
  end.

(** ** The templates *)

Import Str(dq, nl).

(** The f-string assigned to [share_button_html], a line of the source per
    line. *)
Definition share_button_template (linkedin_share_url : string) : string :=
  String.concat nl
    [ "";
      "<div class=" +:+ dq +:+ "social-share-container" +:+ dq +:+ " style=" +:+ dq +:+
        "margin-top: 2rem; padding: 1.5rem; border-top: 2px solid var(--md-default-fg-color--lightest); text-align: center;" +:+
        dq +:+ ">";
      "    <p style=" +:+ dq +:+
        "margin-bottom: 1rem; color: var(--md-default-fg-color--light); font-size: 0.9rem;" +:+
        dq +:+ ">";
      "        <strong>Found this helpful? Share it on LinkedIn!</strong>";
      "    </p>";
      "    <a href=" +:+ dq +:+ linkedin_share_url +:+ dq +:+ " ";
      "       target=" +:+ dq +:+ "_blank" +:+ dq +:+ " ";
      "       rel=" +:+ dq +:+ "noopener noreferrer" +:+ dq;
      "       class=" +:+ dq +:+ "linkedin-share-button" +:+ dq;
      "       style=" +:+ dq +:+
        "display: inline-flex; align-items: center; gap: 0.5rem; padding: 0.75rem 1.5rem; ";
      "              background-color: #0A66C2; color: white; text-decoration: none; ";
      "              border-radius: 4px; font-weight: 500; transition: background-color 0.3s ease;";
      "              box-shadow: 0 2px 4px rgba(0,0,0,0.1);" +:+ dq;
      "       onmouseover=" +:+ dq +:+ "this.style.backgroundColor='#004182'" +:+ dq;
      "       onmouseout=" +:+ dq +:+ "this.style.backgroundColor='#0A66C2'" +:+ dq +:+ ">";
      "        <svg xmlns=" +:+ dq +:+ "http://www.w3.org/2000/svg" +:+ dq +:+ " width=" +:+ dq +:+
        "20" +:+ dq +:+ " height=" +:+ dq +:+ "20" +:+ dq +:+ " viewBox=" +:+ dq +:+ "0 0 24 24" +:+
        dq +:+ " fill=" +:+ dq +:+ "currentColor" +:+ dq +:+ ">";
      "            <path d=" +:+ dq +:+
        "M19 0h-14c-2.761 0-5 2.239-5 5v14c0 2.761 2.239 5 5 5h14c2.762 0 5-2.239 5-5v-14c0-2.761-2.238-5-5-5zm-11 19h-3v-11h3v11zm-1.5-12.268c-.966 0-1.75-.79-1.75-1.764s.784-1.764 1.75-1.764 1.75.79 1.75 1.764-.783 1.764-1.75 1.764zm13.5 12.268h-3v-5.604c0-3.368-4-3.113-4 0v5.604h-3v-11h3v1.765c1.396-2.586 7-2.777 7 2.476v6.759z" +:+
        dq +:+ "/>";
      "        </svg>";
      "        Share on LinkedIn";
      "    </a>";
      "</div>";
      "";
      "<style>";
      "    .linkedin-share-button:hover {";
      "        transform: translateY(-2px);";
      "        box-shadow: 0 4px 8px rgba(0,0,0,0.15);";
      "    }";
      "    ";
      "    @media (max-width: 768px) {";
      "        .social-share-container {";
      "            padding: 1rem;";
      "        }";
      "        .linkedin-share-button {";
      "            width: 100%;";
      "            justify-content: center;";
      "        }";
      "    }";
      "</style>";
      "" ].

(** The f-string assigned to [og_tags]. *)
Definition og_tags_template (page_url : string) (page_title page_description site_name : pyval) : string :=
  String.concat nl
    [ "";
      "    <!-- Open Graph / LinkedIn meta tags -->";
      "    <meta property=" +:+ dq +:+ "og:type" +:+ dq +:+ " content=" +:+ dq +:+ "article" +:+
        dq +:+ " />";
      "    <meta property=" +:+ dq +:+ "og:url" +:+ dq +:+ " content=" +:+ dq +:+ page_url +:+
        dq +:+ " />";
      "    <meta property=" +:+ dq +:+ "og:title" +:+ dq +:+ " content=" +:+ dq +:+
        Py.format_value page_title +:+ dq +:+ " />";
      "    <meta property=" +:+ dq +:+ "og:description" +:+ dq +:+ " content=" +:+ dq +:+
        Py.format_value page_description +:+ dq +:+ " />";
      "    <meta property=" +:+ dq +:+ "og:site_name" +:+ dq +:+ " content=" +:+ dq +:+
        Py.format_value site_name +:+ dq +:+ " />";
      "    ";
      "    <!-- Twitter Card meta tags (also used by LinkedIn) -->";
      "    <meta name=" +:+ dq +:+ "twitter:card" +:+ dq +:+ " content=" +:+ dq +:+
        "summary_large_image" +:+ dq +:+ " />";
      "    <meta name=" +:+ dq +:+ "twitter:title" +:+ dq +:+ " content=" +:+ dq +:+
        Py.format_value page_title +:+ dq +:+ " />";
      "    <meta name=" +:+ dq +:+ "twitter:description" +:+ dq +:+ " content=" +:+ dq +:+
        Py.format_value page_description +:+ dq +:+ " />";
      "" ].

(** ** The hooks *)

(** The local variables of [on_page_content] once the body of its [if] has
    run, up to the assignment of [share_button_html]. *)
Record ContentLocals : Type := {
  c_site_url : string;
  c_page_url : string;
  c_page_title : pyval;
  c_page_description : pyval;
  c_encoded_url : string;
  c_linkedin_share_url : string;
  c_share_button_html : string
}.

(** Lines 36 to 100 of the source: the body of the [if] of
    [on_page_content], before [html] is assigned. *)
Definition content_locals (page : Page) (config : gmap string pyval) : Py.M ContentLocals :=
  let* site_url := Py.rstrip (Py.get config "site_url" (PyStr "")) "/" in
  let page_url :=
    if Str.nonempty site_url then site_url +:+ "/" +:+ Str.lstrip (url page) "/"
    else url page in
  let page_title := Py.or (title page) (PyStr "Check out this post") in
  let page_description := PyStr "" in
  let page_description :=
    if has_meta page then meta_get page "description" (PyStr "")
    else page_description in
  let page_description :=
    if negb (Py.truthy page_description) then Py.get config "site_description" (PyStr "")
    else page_description in
  let encoded_url := Urllib.quote page_url "" in
  let linkedin_share_url :=
    "https://www.linkedin.com/sharing/share-offsite/?url=" +:+ encoded_url in
  let share_button_html := share_button_template linkedin_share_url in
  Py.ret {| c_site_url := site_url;
            c_page_url := page_url;
            c_page_title := page_title;
            c_page_description := page_description;
            c_encoded_url := encoded_url;
            c_linkedin_share_url := linkedin_share_url;
            c_share_button_html := share_button_html |}.

(** [on_page_content(html, page, config, files)] *)
Definition on_page_content (html : string) (page : Page) (config : gmap string pyval)
    (files : list File) : Py.M string :=
  if Str.startswith (src_uri (file page)) "posts/" then
    let* locals := content_locals page config in
    let html := html +:+ c_share_button_html locals in
    let* _ := Py.log_info ("Added LinkedIn share button to: " +:+ src_uri (file page)) in
    Py.ret html
  else Py.ret html.

(** The local variables of [on_post_page] once [og_tags] is assigned. *)
Record PostLocals : Type := {
  p_site_url : string;
  p_page_url : string;
  p_page_title : pyval;
  p_page_description : pyval;
  p_og_tags : string
}.

(** Lines 124 to 146 of the source: the body of the [if] of [on_post_page],
    before the test on [output]. *)
Definition post_locals (page : Page) (config : gmap string pyval) : Py.M PostLocals :=
  let* site_url := Py.rstrip (Py.get config "site_url" (PyStr "")) "/" in
  let page_url :=
    if Str.nonempty site_url then site_url +:+ "/" +:+ url page
    else url page in
  let page_title := Py.or (title page) (Py.get config "site_name" (PyStr "Blog Post")) in
  let page_description := Py.get config "site_description" (PyStr "") in
  let page_description :=
    if has_meta page then meta_get page "description" page_description
    else page_description in
  let og_tags :=
    og_tags_template page_url page_title page_description
      (Py.get config "site_name" (PyStr "")) in
  Py.ret {| p_site_url := site_url;
            p_page_url := page_url;
            p_page_title := page_title;
            p_page_description := page_description;
            p_og_tags := og_tags |}.

(** [on_post_page(output, page, config)] *)
Definition on_post_page (output : string) (page : Page) (config : gmap string pyval)
    : Py.M string :=
  if Str.startswith (src_uri (file page)) "posts/" then
    let* locals := post_locals page config in
    if Str.contains "<head>" output then
      let output := Str.replace_first output "<head>" ("<head>" +:+ p_og_tags locals) in
      let* _ := Py.log_info ("Added Open Graph meta tags to: " +:+ src_uri (file page)) in
      Py.ret output
    else Py.ret output
  else Py.ret output.
(** ** Inputs used as examples *)

Module Sample.

(** Example 1 of the specification: a post under a site with a URL. *)
Definition hello : Page :=
  {| file := {| src_uri := "posts/hello.md" |};
     url := "/posts/hello/";
     title := PyStr "Hello";
     meta := Some {[ "description" := PyStr "A first post" ]} |}.

(** A post as MkDocs hands it over: a URL without a leading slash, no
    title, empty front matter. *)
Definition untitled : Page :=
  {| file := {| src_uri := "posts/a.md" |};
     url := "posts/a/";
     title := PyNone;
     meta := Some ∅ |}.

(** Example 2 of the specification: a page that is not a post. *)
Definition index : Page :=
  {| file := {| src_uri := "index.md" |};
     url := "";
     title := PyStr "Home";
     meta := None |}.

Definition blog_example : gmap string pyval :=
  {[ "site_url" := PyStr "https://blog.example" ]}.

Definition my_blog : gmap string pyval :=
  {[ "site_url" := PyStr "https://blog.example/"; "site_name" := PyStr "My Blog" ]}.

(** A site URL made of a slash only. *)
Definition slash : gmap string pyval :=
  {[ "site_url" := PyStr "/" ]}.

(** The configuration of a site whose [mkdocs.yml] sets [site_name] only:
    MkDocs stores every option of its schema, the unset ones as [None]. *)
Definition unset : gmap string pyval :=
  {[ "site_name" := PyStr "My Blog"; "site_url" := PyNone; "site_description" := PyNone ]}.

(** A site with a URL and a name whose description is not set. *)
Definition no_description : gmap string pyval :=
  {[ "site_url" := PyStr "https://blog.example"; "site_name" := PyStr "My Blog";
     "site_description" := PyNone ]}.

(** A post whose title and description hold markup. *)
Definition markup : Page :=
  {| file := {| src_uri := "posts/tom.md" |};
     url := "posts/tom/";
     title := PyStr "<b>Tom & Jerry</b>";
     meta := Some {[ "description" := PyStr "a > b" ]} |}.


(** A document without ["<head>"]. *)
Definition headless : string := "<html><body><p>Hi</p></body></html>".

Definition document : string :=
  "<html><head><title>t</title></head><body><head></body></html>".

End Sample.

(** ** The specification's wording, for comparison *)

(** The configuration has a [site_url] the hooks can strip: the key is
    missing, or its value is a [str]. *)
Definition site_url_is_str (config : gmap string pyval) : Prop :=
  config !! "site_url" ≠ Some PyNone.

(** The site URL such a configuration yields: its [site_url] entry, or the
    default of [get], without the slashes at its end. *)
Definition stripped_site_url (config : gmap string pyval) : string :=
  match config !! "site_url" with
  | Some (PyStr s) => Str.rstrip s "/"
  | _ => ""
  end.

(** The absolute URL of [on_page_content] as the specification words it:
    joined whenever the site URL is not empty, the page URL otherwise. *)
Definition worded_content_url (page : Page) (config : gmap string pyval) : string :=
  match config !! "site_url" with
  | Some (PyStr s) =>
      if Str.nonempty s then Str.rstrip s "/" +:+ "/" +:+ Str.lstrip (url page) "/"
      else url page
  | _ => url page
  end.

(** The absolute URL of [on_post_page] as the specification words it. *)
Definition worded_post_url (page : Page) (config : gmap string pyval) : string :=
  match config !! "site_url" with
  | Some (PyStr s) =>
      if Str.nonempty s then Str.rstrip s "/" +:+ "/" +:+ url page
      else url page
  | _ => url page
  end.


(** One [<meta>] line of the inserted block. *)
Definition meta_tag (attribute name content : string) : string :=
  "    <meta " +:+ attribute +:+ "=" +:+ dq +:+ name +:+ dq +:+
  " content=" +:+ dq +:+ content +:+ dq +:+ " />".

(** The characters that end or open markup inside an attribute value. *)
Definition HTML_SPECIAL : string := "<>&'" +:+ dq.

(** [page] with another URL, and a configuration with another [site_url]. *)
Definition with_url (page : Page) (u : string) : Page :=
  {| file := file page; url := u; title := title page; meta := meta page |}.

Definition with_site_url (config : gmap string pyval) (s : string) : gmap string pyval :=
  <["site_url" := PyStr s]> config.

(** [n] copies of a character. *)
Fixpoint replicate_char (n : nat) (c : ascii) : string :=
  match n with
  | O => EmptyString
  | S n' => String c (replicate_char n' c)
  end.

(** * Properties *)

(** ** Strings *)

Section StringFacts.

Implicit Types s t u : string.

Lemma app_cons c s t : String c s +:+ t = String c (s +:+ t).
Proof. reflexivity. Qed.

Lemma app_nil_l s : "" +:+ s = s.
Proof. reflexivity. Qed.

Lemma app_nil_r s : s +:+ "" = s.
Proof. induction s as [|c s IH]; [reflexivity|]. rewrite app_cons. by f_equal. Qed.

Lemma app_assoc s t u : (s +:+ t) +:+ u = s +:+ t +:+ u.
Proof. induction s as [|c s IH]; [reflexivity|]. rewrite !app_cons. by f_equal. Qed.

Lemma length_app s t : String.length (s +:+ t) = String.length s + String.length t.
Proof. induction s as [|c s IH]; [reflexivity|]. rewrite app_cons. simpl. by rewrite IH. Qed.

Lemma prefix_nil s : String.prefix "" s = true.
Proof. by destruct s. Qed.

Lemma prefix_cons c d s t :
  String.prefix (String c s) (String d t) = if ascii_dec c d then String.prefix s t else false.
Proof. reflexivity. Qed.

Lemma prefix_app s t : String.prefix s (s +:+ t) = true.
Proof.
  induction s as [|c s IH]; [apply prefix_nil|].
  rewrite app_cons. simpl. destruct (ascii_dec c c); [done|congruence].
Qed.

Lemma prefix_inv s t : String.prefix s t = true → ∃ u, t = s +:+ u.
Proof.
  revert t. induction s as [|c s IH]; intros t H.
  - by exists t.
  - destruct t as [|d t]; [done|]. simpl in H.
    destruct (ascii_dec c d) as [->|]; [|done].
    destruct (IH _ H) as [u ->]. by exists u.
Qed.

Lemma drop_app s t : Str.drop (String.length s) (s +:+ t) = t.
Proof. induction s as [|c s IH]; [by destruct t|]. by rewrite app_cons. Qed.

Lemma mem_app c s t : Str.mem c (s +:+ t) = Str.mem c s || Str.mem c t.
Proof.
  induction s as [|d s IH]; [reflexivity|].
  rewrite app_cons. simpl. by rewrite IH, orb_assoc.
Qed.

End StringFacts.

(** ** Stripping slashes *)

Section Strip.

Implicit Types s t : string.

Lemma mem_slash c : Str.mem c "/" = true ↔ c = "/"%char.
Proof.
  simpl. rewrite orb_false_r. split.
  - intros H. by apply Ascii.eqb_eq.
  - intros ->. apply Ascii.eqb_refl.
Qed.

Lemma lstrip_cons c s chars :
  Str.lstrip (String c s) chars = if Str.mem c chars then Str.lstrip s chars else String c s.
Proof. reflexivity. Qed.

Lemma rstrip_cons c s chars :
  Str.rstrip (String c s) chars =
  match Str.rstrip s chars with
  | EmptyString => if Str.mem c chars then EmptyString else String c EmptyString
  | r => String c r
  end.
Proof. reflexivity. Qed.

(** [lstrip] removes a run of slashes at the front, and only that. *)
Lemma lstrip_decompose s :
  ∃ k, s = replicate_char k "/" +:+ Str.lstrip s "/".
Proof.
  induction s as [|c s [k IH]]; [by exists 0|].
  rewrite lstrip_cons. destruct (Str.mem c "/") eqn:Hc.
  - apply mem_slash in Hc as ->. exists (S k). simpl. rewrite app_cons. by f_equal.
  - by exists 0.
Qed.

(** What [lstrip] leaves does not begin with a slash. *)
Lemma lstrip_no_leading s : String.prefix "/" (Str.lstrip s "/") = false.
Proof.
  induction s as [|c s IH]; [reflexivity|].
  rewrite lstrip_cons. destruct (Str.mem c "/") eqn:Hc; [done|].
  rewrite prefix_cons. destruct (ascii_dec "/" c) as [<-|]; [|done].
  by rewrite (proj2 (mem_slash "/")) in Hc.
Qed.

Lemma lstrip_no_slash s : String.prefix "/" s = false → Str.lstrip s "/" = s.
Proof.
  destruct s as [|c s]; [done|]. rewrite lstrip_cons, prefix_cons.
  destruct (ascii_dec "/" c) as [<-|Hne].
  - by destruct s.
  - intros _. destruct (Str.mem c "/") eqn:Hc; [|done].
    apply mem_slash in Hc. congruence.
Qed.

(** [rstrip] removes a run of slashes at the end, and only that. *)
Lemma rstrip_decompose s :
  ∃ k, s = Str.rstrip s "/" +:+ replicate_char k "/".
Proof.
  induction s as [|c s [k IH]]; [by exists 0|].
  rewrite rstrip_cons. destruct (Str.rstrip s "/") as [|d r] eqn:Hr.
  - destruct (Str.mem c "/") eqn:Hc.
    + apply mem_slash in Hc as ->. exists (S k).
      rewrite app_nil_l in *. simpl. by f_equal.
    + exists k. rewrite app_cons. by f_equal.
  - exists k. rewrite app_cons. by f_equal.
Qed.

(** What [rstrip] leaves does not end with a slash. *)
Lemma rstrip_no_trailing s t : Str.rstrip s "/" ≠ t +:+ "/".
Proof.
  revert t. induction s as [|c s IH]; intros t.
  - by destruct t.
  - rewrite rstrip_cons. destruct (Str.rstrip s "/") as [|d r] eqn:Hr.
    + destruct (Str.mem c "/") eqn:Hc.
      * by destruct t.
      * destruct t as [|e [|??]]; [|done..].
        rewrite app_nil_l. intros [= ->]. by rewrite (proj2 (mem_slash "/")) in Hc.
    + destruct t as [|e t]; [done|].
      rewrite app_cons. intros [= -> H]. by apply (IH t).
Qed.

Lemma rstrip_nonempty_arg s : Str.rstrip s "/" ≠ "" → s ≠ "".
Proof. by intros H ->. Qed.

End Strip.

(** ** Searching and replacing *)

Section Replace.

Implicit Types s old new pre post : string.

Lemma contains_nil old : Str.contains old "" = String.prefix old "".
Proof. unfold Str.contains. apply orb_false_r. Qed.

Lemma contains_cons old c s :
  Str.contains old (String c s) = String.prefix old (String c s) || Str.contains old s.
Proof. reflexivity. Qed.

Lemma replace_first_hit s old new :
  String.prefix old s = true →
  Str.replace_first s old new = new +:+ Str.drop (String.length old) s.
Proof. intros H. destruct s; unfold Str.replace_first; fold Str.replace_first; by rewrite H. Qed.

Lemma replace_first_miss c s old new :
  String.prefix old (String c s) = false →
  Str.replace_first (String c s) old new = String c (Str.replace_first s old new).
Proof. intros H. unfold Str.replace_first; fold Str.replace_first. by rewrite H. Qed.

Lemma contains_prefix old s : String.prefix old s = true → Str.contains old s = true.
Proof.
  intros H. destruct s.
  - by rewrite contains_nil.
  - by rewrite contains_cons, H.
Qed.

Lemma contains_intro old pre post : Str.contains old (pre +:+ old +:+ post) = true.
Proof.
  induction pre as [|c pre IH].
  - rewrite app_nil_l. apply contains_prefix, prefix_app.
  - rewrite app_cons, contains_cons, IH. apply orb_true_r.
Qed.

Lemma contains_inv old s :
  Str.contains old s = true → ∃ pre post, s = pre +:+ old +:+ post.
Proof.
  induction s as [|c s IH]; intros H.
  - rewrite contains_nil in H. apply prefix_inv in H as [u ->]. by exists "", u.
  - rewrite contains_cons in H. apply orb_true_iff in H as [H|H].
    + apply prefix_inv in H as [u ->]. by exists "", u.
    + destruct (IH H) as (pre & post & ->). by exists (String c pre), post.
Qed.

(** Without an occurrence, [replace] returns its string. *)
Lemma replace_first_absent s old new :
  Str.contains old s = false → Str.replace_first s old new = s.
Proof.
  induction s as [|c s IH]; intros H.
  - rewrite contains_nil in H. unfold Str.replace_first. by rewrite H.
  - rewrite contains_cons in H. apply orb_false_iff in H as [H1 H2].
    rewrite replace_first_miss by done. f_equal. by apply IH.
Qed.

(** With one, it replaces the leftmost: the text splits around an occurrence
    of [old] before which no other occurrence starts, and [new] takes its
    place. *)
Lemma replace_first_present s old new :
  Str.contains old s = true →
  ∃ pre post,
    s = pre +:+ old +:+ post ∧
    Str.replace_first s old new = pre +:+ new +:+ post ∧
    ∀ pre' post', s = pre' +:+ old +:+ post' → (String.length pre ≤ String.length pre')%nat.
Proof.
  induction s as [|c s IH]; intros H.
  - rewrite contains_nil in H. exists "", "".
    rewrite replace_first_hit by done.
    apply prefix_inv in H as [u Hu]. destruct old; [|done].
    repeat split; simpl; lia.
  - destruct (String.prefix old (String c s)) eqn:Hp.
    + destruct (prefix_inv _ _ Hp) as [u Hu]. exists "", u.
      rewrite replace_first_hit by done. rewrite Hu, drop_app.
      repeat split; simpl; lia.
    + rewrite contains_cons, Hp in H. simpl in H.
      destruct (IH H) as (pre & post & Hs & Hr & Hmin).
      exists (String c pre), post.
      rewrite replace_first_miss by done. rewrite Hr.
      split; [by rewrite Hs|]. split; [done|].
      intros [|d pre'] post' E.
      * rewrite app_nil_l in E. by rewrite E, prefix_app in Hp.
      * rewrite app_cons in E. injection E as -> E. simpl.
        apply le_n_S. by apply (Hmin pre' post').
Qed.

End Replace.

(** ** Percent-encoding *)

Section Quote.

Implicit Types s rest : string.

Local Ltac each_byte c := destruct c as [[] [] [] [] [] [] [] []].

Lemma quote_cons c s safe :
  Urllib.quote (String c s) safe = Urllib.quoter safe c +:+ Urllib.quote s safe.
Proof. reflexivity. Qed.

(** Decoding undoes the quoter of a byte, whatever follows it. *)
Lemma unquote_quoter c rest :
  Urllib.unquote (Urllib.quoter "" c +:+ rest) = String c (Urllib.unquote rest).
Proof. each_byte c; reflexivity. Qed.

Lemma unquote_quote s : Urllib.unquote (Urllib.quote s "") = s.
Proof.
  induction s as [|c s IH]; [reflexivity|].
  by rewrite quote_cons, unquote_quoter, IH.
Qed.

(** The quoter writes ['%'] and unreserved characters only. *)
Lemma quoter_alphabet c d :
  Str.mem d (Urllib.quoter "" c) = true → Str.mem d ("%" +:+ Urllib.ALWAYS_SAFE) = true.
Proof.
  intros H. each_byte c; cbn in H;
    repeat (apply orb_true_iff in H as [H|H]); try discriminate;
    apply Ascii.eqb_eq in H; subst d; reflexivity.
Qed.

Lemma quote_alphabet s d :
  Str.mem d (Urllib.quote s "") = true → Str.mem d ("%" +:+ Urllib.ALWAYS_SAFE) = true.
Proof.
  induction s as [|c s IH]; [done|].
  rewrite quote_cons, mem_app. intros [H|H]%orb_true_iff; [|by apply IH].
  by apply (quoter_alphabet c).
Qed.

(** A reserved character or a space is neither ['%'] nor unreserved. *)
Lemma reserved_not_in_alphabet d :
  Str.mem d (Urllib.RESERVED +:+ " ") = true →
  Str.mem d ("%" +:+ Urllib.ALWAYS_SAFE) = false.
Proof. each_byte d; vm_compute; congruence. Qed.

(** With [safe=""] a reserved character, or a space, is escaped. *)
Lemma quoter_reserved c :
  Str.mem c (Urllib.RESERVED +:+ " ") = true → Urllib.quoter "" c = Urllib.percent c.
Proof. each_byte c; vm_compute; congruence. Qed.

Lemma quote_no_reserved s d :
  Str.mem d (Urllib.RESERVED +:+ " ") = true → Str.mem d (Urllib.quote s "") = false.
Proof.
  intros Hd. destruct (Str.mem d (Urllib.quote s "")) eqn:H; [|done].
  apply quote_alphabet in H. by rewrite (reserved_not_in_alphabet d Hd) in H.
Qed.

End Quote.

(** ** The local variables of the hooks *)

Section Locals.

Variables (page : Page) (config : gmap string pyval).

Lemma site_url_rstrip :
  site_url_is_str config →
  Py.rstrip (Py.get config "site_url" (PyStr "")) "/" = (Ok (stripped_site_url config), []).
Proof.
  unfold site_url_is_str, stripped_site_url, Py.get.
  by destruct (config !! "site_url") as [[|s]|].
Qed.

Lemma site_url_raises :
  config !! "site_url" = Some PyNone →
  Py.rstrip (Py.get config "site_url" (PyStr "")) "/" = (Raise (AttributeError "rstrip"), []).
Proof. unfold Py.get. by intros ->. Qed.

(** [on_page_content] assigns all its local variables when the site URL is a
    string, and these are their values. *)
Lemma content_locals_returns :
  site_url_is_str config →
  ∃ ls, content_locals page config = (Ok ls, []) ∧
    c_site_url ls = stripped_site_url config ∧
    c_page_url ls =
      (if Str.nonempty (c_site_url ls)
       then c_site_url ls +:+ "/" +:+ Str.lstrip (url page) "/" else url page) ∧
    c_page_title ls = Py.or (title page) (PyStr "Check out this post") ∧
    c_encoded_url ls = Urllib.quote (c_page_url ls) "" ∧
    c_linkedin_share_url ls =
      "https://www.linkedin.com/sharing/share-offsite/?url=" +:+ c_encoded_url ls ∧
    c_share_button_html ls = share_button_template (c_linkedin_share_url ls).
Proof.
  intros H. unfold content_locals. rewrite (site_url_rstrip H).
  eexists. split; [reflexivity|]. by repeat split.
Qed.

Lemma content_locals_raises :
  config !! "site_url" = Some PyNone →
  content_locals page config = (Raise (AttributeError "rstrip"), []).
Proof. intros H. unfold content_locals. by rewrite (site_url_raises H). Qed.

(** [on_post_page] likewise. *)
Lemma post_locals_returns :
  site_url_is_str config →
  ∃ ls, post_locals page config = (Ok ls, []) ∧
    p_site_url ls = stripped_site_url config ∧
    p_page_url ls =
      (if Str.nonempty (p_site_url ls)
       then p_site_url ls +:+ "/" +:+ url page else url page) ∧
    p_page_title ls = Py.or (title page) (Py.get config "site_name" (PyStr "Blog Post")) ∧
    p_page_description ls =
      (if has_meta page
       then meta_get page "description" (Py.get config "site_description" (PyStr ""))
       else Py.get config "site_description" (PyStr "")) ∧
    p_og_tags ls =
      og_tags_template (p_page_url ls) (p_page_title ls) (p_page_description ls)
        (Py.get config "site_name" (PyStr "")).
Proof.
  intros H. unfold post_locals. rewrite (site_url_rstrip H).
  eexists. split; [reflexivity|]. by repeat split.
Qed.

Lemma post_locals_raises :
  config !! "site_url" = Some PyNone →
  post_locals page config = (Raise (AttributeError "rstrip"), []).
Proof. intros H. unfold post_locals. by rewrite (site_url_raises H). Qed.

End Locals.

(** The inserted block is never empty: it opens with a line feed. *)
Lemma og_tags_template_length page_url page_title page_description site_name :
  (0 < String.length (og_tags_template page_url page_title page_description site_name))%nat.
Proof.
  assert (∃ t, og_tags_template page_url page_title page_description site_name
               = String "010" t) as [t ->] by (eexists; reflexivity).
  simpl. lia.
Qed.

Lemma prefix_app_cancel (s t u : string) :
  String.prefix (s +:+ t) (s +:+ u) = String.prefix t u.
Proof.
  induction s as [|c s IH]; [reflexivity|].
  rewrite !app_cons, prefix_cons. by destruct (ascii_dec c c).
Qed.

(** What the locals of [on_page_content] satisfy whenever they are assigned. *)
Lemma content_locals_inv (page : Page) (config : gmap string pyval) ls log :
  content_locals page config = (Ok ls, log) →
  site_url_is_str config ∧ log = [] ∧
  c_encoded_url ls = Urllib.quote (c_page_url ls) "" ∧
  c_linkedin_share_url ls =
    "https://www.linkedin.com/sharing/share-offsite/?url=" +:+ c_encoded_url ls ∧
  c_share_button_html ls = share_button_template (c_linkedin_share_url ls).
Proof.
  unfold content_locals, site_url_is_str, Py.get.
  destruct (config !! "site_url") as [[|s]|]; [done| |];
    simpl; intros [= <- <-]; by repeat split.
Qed.

(** The block of [on_post_page], tag by tag. *)
Lemma og_tags_template_tags page_url page_title page_description site_name :
  og_tags_template page_url page_title page_description site_name =
  String.concat nl
    [ "";
      "    <!-- Open Graph / LinkedIn meta tags -->";
      meta_tag "property" "og:type" "article";
      meta_tag "property" "og:url" page_url;
      meta_tag "property" "og:title" (Py.format_value page_title);
      meta_tag "property" "og:description" (Py.format_value page_description);
      meta_tag "property" "og:site_name" (Py.format_value site_name);
      "    ";
      "    <!-- Twitter Card meta tags (also used by LinkedIn) -->";
      meta_tag "name" "twitter:card" "summary_large_image";
      meta_tag "name" "twitter:title" (Py.format_value page_title);
      meta_tag "name" "twitter:description" (Py.format_value page_description);
      "" ].
Proof. reflexivity. Qed.


(** The fragment of [on_page_content] around its anchor: the text before
    the anchor and the text after its [href] are fixed and open no other
    anchor. *)
Lemma share_button_template_anchor :
  ∃ before after,
    Str.contains "<a " before = false ∧ Str.contains "<a " after = false ∧
    ∀ link, share_button_template link =
            before +:+ "<a href=" +:+ dq +:+ link +:+ dq +:+ after.
Proof.
  exists (String.concat nl
    [ "";
      "<div class=" +:+ dq +:+ "social-share-container" +:+ dq +:+ " style=" +:+ dq +:+
        "margin-top: 2rem; padding: 1.5rem; border-top: 2px solid var(--md-default-fg-color--lightest); text-align: center;" +:+
        dq +:+ ">";
      "    <p style=" +:+ dq +:+
        "margin-bottom: 1rem; color: var(--md-default-fg-color--light); font-size: 0.9rem;" +:+
        dq +:+ ">";
      "        <strong>Found this helpful? Share it on LinkedIn!</strong>";
      "    </p>";
      "    " ]).
  eexists. split; [reflexivity|]. split; cycle 1.
  - intros link. unfold share_button_template, String.concat.
    rewrite !app_assoc, !app_nil_l. reflexivity.
  - reflexivity.
Qed.

(** * The claims of the specification *)

(** ** Pages that are not posts *)

(** C1. For a page whose source path does not start with ["posts/"], both
    hooks are the identity on their HTML argument, whatever the HTML and the
    configuration (a configuration without a usable [site_url] included);
    nothing is logged. *)
Theorem non_post_identity (html output : string) (page : Page)
    (config : gmap string pyval) (files : list File) :
  Str.startswith (src_uri (file page)) "posts/" = false →
  on_page_content html page config files = (Ok html, []) ∧
  on_post_page output page config = (Ok output, []).
Proof.
  intros H. unfold on_page_content, on_post_page. by rewrite H.
Qed.

Lemma non_post_identity_witness :
  Str.startswith (src_uri (file Sample.index)) "posts/" = false ∧
  on_page_content "<p>Home</p>" Sample.index Sample.unset [] = (Ok "<p>Home</p>", []) ∧
  on_post_page Sample.document Sample.index Sample.unset = (Ok Sample.document, []).
Proof.
  split; [reflexivity|].
  apply (non_post_identity "<p>Home</p>" Sample.document Sample.index Sample.unset []).
  reflexivity.
Defined.

(** ** The share button *)

(** For a post under a configuration whose site URL is a string, or is
    missing, [on_page_content] returns its [html] with the share-button
    fragment concatenated at the end: the input is a prefix of the output and
    the output is at least as long.  One line is logged. *)
Theorem share_button_appended (html : string) (page : Page)
    (config : gmap string pyval) (files : list File) :
  Str.startswith (src_uri (file page)) "posts/" = true →
  site_url_is_str config →
  ∃ ls, content_locals page config = (Ok ls, []) ∧
    on_page_content html page config files =
      (Ok (html +:+ c_share_button_html ls),
       ["Added LinkedIn share button to: " +:+ src_uri (file page)]) ∧
    String.prefix html (html +:+ c_share_button_html ls) = true ∧
    (String.length html ≤ String.length (html +:+ c_share_button_html ls))%nat.
Proof.
  intros Hpost Hurl.
  destruct (content_locals_returns page config Hurl) as (ls & Hls & _).
  exists ls. split; [done|]. split; [|split].
  - unfold on_page_content. by rewrite Hpost, Hls.
  - apply prefix_app.
  - rewrite length_app. lia.
Qed.

Lemma share_button_appended_witness :
  ∃ ls, content_locals Sample.hello Sample.blog_example = (Ok ls, []) ∧
    on_page_content "<p>Hi</p>" Sample.hello Sample.blog_example [] =
      (Ok ("<p>Hi</p>" +:+ c_share_button_html ls),
       ["Added LinkedIn share button to: " +:+ src_uri (file Sample.hello)]) ∧
    String.prefix "<p>Hi</p>" ("<p>Hi</p>" +:+ c_share_button_html ls) = true ∧
    (String.length "<p>Hi</p>" ≤ String.length ("<p>Hi</p>" +:+ c_share_button_html ls))%nat.
Proof.
  apply (share_button_appended "<p>Hi</p>" Sample.hello Sample.blog_example []).
  - reflexivity.
  - vm_compute. discriminate.
Defined.

(** C2. The statement above does not hold of every post: under the
    configuration of a site that sets no [site_url], where the key is there
    and holds [None], [on_page_content] raises and returns no HTML at all, so
    that its input is not kept as the prefix of any output. *)
Theorem share_button_missing_without_site_url :
  Str.startswith (src_uri (file Sample.untitled)) "posts/" = true ∧
  Sample.unset !! "site_url" = Some PyNone ∧
  on_page_content "<p>Hi</p>" Sample.untitled Sample.unset []
    = (Raise (AttributeError "rstrip"), []) ∧
  ∀ out log, on_page_content "<p>Hi</p>" Sample.untitled Sample.unset [] ≠ (Ok out, log).
Proof.
  split; [reflexivity|]. split; [reflexivity|]. split; [reflexivity|].
  intros out log H. vm_compute in H. discriminate H.
Qed.

(** ** The meta tags *)

(** For a post under a configuration whose site URL is a string, or is
    missing: when ["<head>"] does not occur in the output, [on_post_page]
    returns it unchanged and logs nothing; when it occurs, the block of tags
    is inserted right after the first occurrence and nowhere else, so that
    the result is longer than the output by the length of one block, which is
    not empty. *)
Theorem og_tags_inserted (output : string) (page : Page) (config : gmap string pyval) :
  Str.startswith (src_uri (file page)) "posts/" = true →
  site_url_is_str config →
  ∃ ls, post_locals page config = (Ok ls, []) ∧
    (Str.contains "<head>" output = false →
       on_post_page output page config = (Ok output, [])) ∧
    (Str.contains "<head>" output = true →
       ∃ pre post,
         output = pre +:+ "<head>" +:+ post ∧
         (∀ pre' post', output = pre' +:+ "<head>" +:+ post' →
            (String.length pre ≤ String.length pre')%nat) ∧
         on_post_page output page config =
           (Ok (pre +:+ "<head>" +:+ p_og_tags ls +:+ post),
            ["Added Open Graph meta tags to: " +:+ src_uri (file page)]) ∧
         String.length (pre +:+ "<head>" +:+ p_og_tags ls +:+ post) =
           String.length output + String.length (p_og_tags ls) ∧
         (String.length output <
            String.length (pre +:+ "<head>" +:+ p_og_tags ls +:+ post))%nat).
Proof.
  intros Hpost Hurl.
  destruct (post_locals_returns page config Hurl) as (ls & Hls & _ & _ & _ & _ & Htags).
  exists ls. split; [done|]. split.
  - intros Hno. unfold on_post_page. by rewrite Hpost, Hls, Hno.
  - intros Hyes.
    destruct (replace_first_present output "<head>" ("<head>" +:+ p_og_tags ls) Hyes)
      as (pre & post & Hsplit & Hrepl & Hfirst).
    exists pre, post. split; [done|]. split; [done|].
    assert (Hlen : String.length (pre +:+ "<head>" +:+ p_og_tags ls +:+ post) =
                   String.length output + String.length (p_og_tags ls)).
    { rewrite Hsplit, !length_app. lia. }
    split; [|split; [done|]].
    + unfold on_post_page. rewrite Hpost, Hls.
      unfold Py.bind, Py.log_info, Py.ret. by rewrite Hyes, Hrepl, app_assoc.
    + rewrite Hlen, Htags.
      pose proof (og_tags_template_length (p_page_url ls) (p_page_title ls)
                    (p_page_description ls) (Py.get config "site_name" (PyStr ""))).
      lia.
Qed.

Lemma og_tags_inserted_witness :
  ∃ ls, post_locals Sample.hello Sample.blog_example = (Ok ls, []) ∧
    (Str.contains "<head>" Sample.document = false →
       on_post_page Sample.document Sample.hello Sample.blog_example
       = (Ok Sample.document, [])) ∧
    (Str.contains "<head>" Sample.document = true →
       ∃ pre post,
         Sample.document = pre +:+ "<head>" +:+ post ∧
         (∀ pre' post', Sample.document = pre' +:+ "<head>" +:+ post' →
            (String.length pre ≤ String.length pre')%nat) ∧
         on_post_page Sample.document Sample.hello Sample.blog_example =
           (Ok (pre +:+ "<head>" +:+ p_og_tags ls +:+ post),
            ["Added Open Graph meta tags to: " +:+ src_uri (file Sample.hello)]) ∧
         String.length (pre +:+ "<head>" +:+ p_og_tags ls +:+ post) =
           String.length Sample.document + String.length (p_og_tags ls) ∧
         (String.length Sample.document <
            String.length (pre +:+ "<head>" +:+ p_og_tags ls +:+ post))%nat).
Proof.
  apply (og_tags_inserted Sample.document Sample.hello Sample.blog_example).
  - reflexivity.
  - vm_compute. discriminate.
Defined.

(** C3. The statement above does not hold of every post: under the
    configuration of a site that sets no [site_url], where the key is there
    and holds [None], [on_post_page] raises on a document without ["<head>"]
    instead of returning it unchanged. *)
Theorem headless_raises_without_site_url :
  Str.startswith (src_uri (file Sample.untitled)) "posts/" = true ∧
  Sample.unset !! "site_url" = Some PyNone ∧
  Str.contains "<head>" Sample.headless = false ∧
  on_post_page Sample.headless Sample.untitled Sample.unset
    = (Raise (AttributeError "rstrip"), []) ∧
  on_post_page Sample.headless Sample.untitled Sample.unset ≠ (Ok Sample.headless, []).
Proof.
  split; [reflexivity|]. split; [reflexivity|]. split; [reflexivity|].
  split; [reflexivity|]. intros H. vm_compute in H. discriminate H.
Qed.

(** ** The absolute URL of the page *)

(** C4, as the specification words it, fails: a site URL made of slashes is
    not empty, yet [on_page_content] uses the page URL as it is. *)
Lemma content_url_of_slash_site :
  ∃ ls, content_locals Sample.untitled Sample.slash = (Ok ls, []) ∧
    c_page_url ls = "posts/a/" ∧
    worded_content_url Sample.untitled Sample.slash = "/posts/a/" ∧
    c_page_url ls ≠ worded_content_url Sample.untitled Sample.slash.
Proof.
  eexists. split; [reflexivity|]. repeat split. vm_compute. discriminate.
Qed.

(** C4, amended.  In [on_page_content], when the site URL without its
    trailing slashes is not empty, the absolute URL of the page is that
    stripped site URL, one slash, and the page URL without its leading
    slashes; when the site URL is missing, empty or made of slashes only, it
    is the page URL unchanged.  For the site ["https://blog.example"] and the
    page URL ["/posts/hello/"] it is ["https://blog.example/posts/hello/"],
    and the query value of the share link is its percent-encoded form. *)
Theorem content_page_url_resolved (page : Page) (config : gmap string pyval) :
  site_url_is_str config →
  (∃ ls, content_locals page config = (Ok ls, []) ∧
     (∀ s, config !! "site_url" = Some (PyStr s) → Str.rstrip s "/" ≠ "" →
        c_page_url ls = Str.rstrip s "/" +:+ "/" +:+ Str.lstrip (url page) "/") ∧
     (∀ s, config !! "site_url" = Some (PyStr s) → Str.rstrip s "/" = "" →
        c_page_url ls = url page) ∧
     (config !! "site_url" = None → c_page_url ls = url page)) ∧
  (∃ ls, content_locals Sample.hello Sample.blog_example = (Ok ls, []) ∧
     c_page_url ls = "https://blog.example/posts/hello/" ∧
     c_encoded_url ls = "https%3A%2F%2Fblog.example%2Fposts%2Fhello%2F" ∧
     c_linkedin_share_url ls =
       "https://www.linkedin.com/sharing/share-offsite/?url=" +:+
       "https%3A%2F%2Fblog.example%2Fposts%2Fhello%2F").
Proof.
  intros Hurl. split; [|eexists; split; [reflexivity|]; by repeat split].
  destruct (content_locals_returns page config Hurl) as (ls & Hls & Hsite & Hpage & _).
  exists ls. split; [done|]. rewrite Hpage, Hsite. unfold stripped_site_url.
  split; [|split].
  - intros s -> Hs. by destruct (Str.rstrip s "/").
  - by intros s -> ->.
  - by intros ->.
Qed.

Lemma content_page_url_resolved_witness :
  site_url_is_str Sample.my_blog ∧
  ∃ ls, content_locals Sample.untitled Sample.my_blog = (Ok ls, []) ∧
    c_page_url ls = "https://blog.example/posts/a/".
Proof.
  assert (H : site_url_is_str Sample.my_blog) by (vm_compute; discriminate).
  split; [exact H|].
  destruct (content_page_url_resolved Sample.untitled Sample.my_blog H)
    as [(ls & Hls & Hjoin & _) _].
  exists ls. split; [exact Hls|].
  apply (Hjoin "https://blog.example/"); [reflexivity | vm_compute; discriminate].
Defined.

(** ** Percent-encoding of the URL *)

(** C5. The URL that [on_page_content] puts in the share link is the
    percent-encoding of the absolute URL of the page with no character kept
    safe but the unreserved ones: every reserved character of RFC 3986, ['/']
    among them, and the space are escaped, none of them occurs in the encoded
    value, and decoding the encoded value gives back the absolute URL. *)
Theorem encoded_url_round_trip (page : Page) (config : gmap string pyval)
    (ls : ContentLocals) (log : list string) :
  content_locals page config = (Ok ls, log) →
  c_encoded_url ls = Urllib.quote (c_page_url ls) "" ∧
  (∀ c, Str.mem c (Urllib.RESERVED +:+ " ") = true →
     Urllib.quoter "" c = Urllib.percent c ∧ Str.mem c (c_encoded_url ls) = false) ∧
  Urllib.unquote (c_encoded_url ls) = c_page_url ls ∧
  (∀ u, Urllib.unquote (Urllib.quote u "") = u) ∧
  Urllib.quote "https://x.com/posts/a b?c=d" ""
    = "https%3A%2F%2Fx.com%2Fposts%2Fa%20b%3Fc%3Dd".
Proof.
  intros (_ & _ & Henc & _)%content_locals_inv. rewrite Henc.
  split; [done|]. split; [|split; [apply unquote_quote|split; [apply unquote_quote|done]]].
  intros c Hc. split; [by apply quoter_reserved | by apply quote_no_reserved].
Qed.

Lemma encoded_url_round_trip_witness :
  ∃ ls, content_locals Sample.hello Sample.blog_example = (Ok ls, []) ∧
    Urllib.unquote (c_encoded_url ls) = c_page_url ls.
Proof.
  eexists. split; [reflexivity|].
  eapply (encoded_url_round_trip Sample.hello Sample.blog_example). reflexivity.
Defined.

(** ** The two constructions of the URL *)

(** C6, as the specification words it, fails: under a site URL made of
    slashes, which is not empty, [on_post_page] does not join anything; its
    URL is the page URL, the same as that of [on_page_content], and has no
    double slash. *)
Lemma post_url_of_slash_site :
  ∃ lc lp,
    content_locals Sample.hello Sample.slash = (Ok lc, []) ∧
    post_locals Sample.hello Sample.slash = (Ok lp, []) ∧
    String.prefix "/" (url Sample.hello) = true ∧
    p_page_url lp = "/posts/hello/" ∧
    p_page_url lp = c_page_url lc ∧
    Str.contains "//" (p_page_url lp) = false ∧
    p_page_url lp ≠ worded_post_url Sample.hello Sample.slash.
Proof.
  eexists _, _. split; [reflexivity|]. split; [reflexivity|].
  repeat split. vm_compute. discriminate.
Qed.

(** C6, amended.  When the site URL without its trailing slashes is not
    empty, [on_page_content] joins it by one slash to the page URL without
    its leading slashes, and [on_post_page] joins it by one slash to the page
    URL as it is.  Hence, for a page URL that begins with a slash, the URL
    that [on_post_page] puts in [og:url] has a double slash right after the
    site URL, where the URL of [on_page_content] has a single one. *)
Theorem page_urls_differ (page : Page) (config : gmap string pyval) (s : string) :
  config !! "site_url" = Some (PyStr s) →
  Str.rstrip s "/" ≠ "" →
  ∃ lc lp,
    content_locals page config = (Ok lc, []) ∧
    post_locals page config = (Ok lp, []) ∧
    c_page_url lc = Str.rstrip s "/" +:+ "/" +:+ Str.lstrip (url page) "/" ∧
    p_page_url lp = Str.rstrip s "/" +:+ "/" +:+ url page ∧
    (∃ before after,
       p_og_tags lp = before +:+ meta_tag "property" "og:url" (p_page_url lp) +:+ after) ∧
    ∀ rest, url page = "/" +:+ rest →
      p_page_url lp = Str.rstrip s "/" +:+ "//" +:+ rest ∧
      String.prefix (Str.rstrip s "/" +:+ "//") (p_page_url lp) = true ∧
      String.prefix (Str.rstrip s "/" +:+ "//") (c_page_url lc) = false.
Proof.
  intros Hcfg Hs.
  assert (Hurl : site_url_is_str config) by (unfold site_url_is_str; by rewrite Hcfg).
  destruct (content_locals_returns page config Hurl) as (lc & Hlc & Hcs & Hcp & _).
  destruct (post_locals_returns page config Hurl) as (lp & Hlp & Hps & Hpp & _ & _ & Htags).
  assert (Hsite : stripped_site_url config = Str.rstrip s "/").
  { unfold stripped_site_url. by rewrite Hcfg. }
  rewrite Hcs, Hsite in Hcp. rewrite Hps, Hsite in Hpp.
  assert (Hne : Str.nonempty (Str.rstrip s "/") = true)
    by (by destruct (Str.rstrip s "/")).
  rewrite Hne in Hcp, Hpp. set (site := Str.rstrip s "/") in *.
  exists lc, lp. repeat (split; [done|]). split.
  - rewrite Htags, og_tags_template_tags.
    eexists (String.concat nl [""; "    <!-- Open Graph / LinkedIn meta tags -->";
                               meta_tag "property" "og:type" "article"] +:+ nl), _.
    unfold String.concat. rewrite !app_assoc. reflexivity.
  - intros rest Hrest. rewrite Hpp, Hcp, Hrest.
    split; [reflexivity|]. split.
    + replace (site +:+ "/" +:+ "/" +:+ rest) with ((site +:+ "//") +:+ rest)
        by (by rewrite app_assoc).
      apply prefix_app.
    + rewrite prefix_app_cancel.
      change (Str.lstrip ("/" +:+ rest) "/") with (Str.lstrip rest "/").
      pose proof (lstrip_no_leading rest) as Hno.
      destruct (Str.lstrip rest "/") as [|d l]; [done|].
      rewrite app_cons, app_nil_l, prefix_cons. by destruct (ascii_dec "/" "/").
Qed.

Lemma page_urls_differ_witness :
  ∃ lc lp,
    content_locals Sample.hello Sample.my_blog = (Ok lc, []) ∧
    post_locals Sample.hello Sample.my_blog = (Ok lp, []) ∧
    c_page_url lc = "https://blog.example/posts/hello/" ∧
    p_page_url lp = "https://blog.example//posts/hello/".
Proof.
  destruct (page_urls_differ Sample.hello Sample.my_blog "https://blog.example/")
    as (lc & lp & Hlc & Hlp & Hc & Hp & _).
  - reflexivity.
  - vm_compute. discriminate.
  - exists lc, lp. repeat split; assumption.
Defined.

(** ** The title *)




(** ** The emitted markup *)

(** For a post under a configuration whose site URL is a string, or is
    missing: the fragment that [on_page_content] appends has one anchor,
    whose [href] is ["https://www.linkedin.com/sharing/share-offsite/?url="]
    followed by the percent-encoded absolute URL; the block that
    [on_post_page] inserts after ["<head>"] is made of the tags [og:type]
    (["article"]), [og:url], [og:title], [og:description], [og:site_name],
    [twitter:card] (["summary_large_image"]), [twitter:title] and
    [twitter:description], in this order, each value put in as it is, without
    escaping. *)
Theorem emitted_markup (html output : string) (page : Page)
    (config : gmap string pyval) (files : list File) :
  Str.startswith (src_uri (file page)) "posts/" = true →
  site_url_is_str config →
  ∃ lc lp,
    content_locals page config = (Ok lc, []) ∧
    post_locals page config = (Ok lp, []) ∧
    c_linkedin_share_url lc =
      "https://www.linkedin.com/sharing/share-offsite/?url=" +:+
      Urllib.quote (c_page_url lc) "" ∧
    (∃ before after,
       Str.contains "<a " before = false ∧ Str.contains "<a " after = false ∧
       fst (on_page_content html page config files) =
         Ok (html +:+ before +:+
             "<a href=" +:+ dq +:+ c_linkedin_share_url lc +:+ dq +:+ after)) ∧
    p_og_tags lp =
      String.concat nl
        [ "";
          "    <!-- Open Graph / LinkedIn meta tags -->";
          meta_tag "property" "og:type" "article";
          meta_tag "property" "og:url" (p_page_url lp);
          meta_tag "property" "og:title" (Py.format_value (p_page_title lp));
          meta_tag "property" "og:description" (Py.format_value (p_page_description lp));
          meta_tag "property" "og:site_name"
            (Py.format_value (Py.get config "site_name" (PyStr "")));
          "    ";
          "    <!-- Twitter Card meta tags (also used by LinkedIn) -->";
          meta_tag "name" "twitter:card" "summary_large_image";
          meta_tag "name" "twitter:title" (Py.format_value (p_page_title lp));
          meta_tag "name" "twitter:description" (Py.format_value (p_page_description lp));
          "" ] ∧
    (Str.contains "<head>" output = true →
       ∃ pre post,
         output = pre +:+ "<head>" +:+ post ∧
         fst (on_post_page output page config) =
           Ok (pre +:+ "<head>" +:+ p_og_tags lp +:+ post)).
Proof.
  intros Hpost Hurl.
  destruct (content_locals_returns page config Hurl)
    as (lc & Hlc & _ & _ & _ & Henc & Hlink & Hhtml).
  destruct (post_locals_returns page config Hurl) as (lp & Hlp & _ & _ & _ & _ & Htags).
  exists lc, lp. split; [done|]. split; [done|]. split; [by rewrite Hlink, Henc|].
  split; [|split; [by rewrite Htags, og_tags_template_tags|]].
  - destruct share_button_template_anchor as (before & after & Hb & Ha & Hanchor).
    exists before, after. split; [done|]. split; [done|].
    unfold on_page_content. rewrite Hpost, Hlc. simpl fst.
    by rewrite Hhtml, Hanchor.
  - intros Hhead.
    destruct (replace_first_present output "<head>" ("<head>" +:+ p_og_tags lp) Hhead)
      as (pre & post & Hsplit & Hrepl & _).
    exists pre, post. split; [done|].
    unfold on_post_page. rewrite Hpost, Hlp.
    unfold Py.bind, Py.log_info, Py.ret. by rewrite Hhead, Hrepl, app_assoc.
Qed.

Lemma emitted_markup_witness :
  ∃ lc lp,
    content_locals Sample.markup Sample.my_blog = (Ok lc, []) ∧
    post_locals Sample.markup Sample.my_blog = (Ok lp, []) ∧
    c_linkedin_share_url lc =
      "https://www.linkedin.com/sharing/share-offsite/?url=" +:+
      "https%3A%2F%2Fblog.example%2Fposts%2Ftom%2F" ∧
    p_og_tags lp =
      String.concat nl
        [ "";
          "    <!-- Open Graph / LinkedIn meta tags -->";
          meta_tag "property" "og:type" "article";
          meta_tag "property" "og:url" "https://blog.example/posts/tom/";
          meta_tag "property" "og:title" "<b>Tom & Jerry</b>";
          meta_tag "property" "og:description" "a > b";
          meta_tag "property" "og:site_name" "My Blog";
          "    ";
          "    <!-- Twitter Card meta tags (also used by LinkedIn) -->";
          meta_tag "name" "twitter:card" "summary_large_image";
          meta_tag "name" "twitter:title" "<b>Tom & Jerry</b>";
          meta_tag "name" "twitter:description" "a > b";
          "" ] ∧
    ∃ pre post,
      Sample.document = pre +:+ "<head>" +:+ post ∧
      fst (on_post_page Sample.document Sample.markup Sample.my_blog) =
        Ok (pre +:+ "<head>" +:+ p_og_tags lp +:+ post).
Proof.
  destruct (emitted_markup "<p>Hi</p>" Sample.document Sample.markup Sample.my_blog [])
    as (lc & lp & Hlc & Hlp & Hlink & _ & Htags & Hout).
  - reflexivity.
  - vm_compute. discriminate.
  - exists lc, lp. split; [exact Hlc|]. split; [exact Hlp|].
    split; [|split; [|exact (Hout eq_refl)]].
    + injection Hlc as <-. reflexivity.
    + injection Hlp as <-. reflexivity.
Defined.

(** C8. The statement above does not hold of every post: under the
    configuration of a site that sets no [site_url], where the key is there
    and holds [None], both hooks raise before any markup is built, so that
    neither the anchor nor the block of tags is emitted. *)
Theorem markup_missing_without_site_url :
  Str.startswith (src_uri (file Sample.markup)) "posts/" = true ∧
  Sample.unset !! "site_url" = Some PyNone ∧
  content_locals Sample.markup Sample.unset = (Raise (AttributeError "rstrip"), []) ∧
  post_locals Sample.markup Sample.unset = (Raise (AttributeError "rstrip"), []) ∧
  (∀ out log, on_page_content "<p>Hi</p>" Sample.markup Sample.unset [] ≠ (Ok out, log)) ∧
  (∀ out log, on_post_page Sample.document Sample.markup Sample.unset ≠ (Ok out, log)).
Proof.
  split; [reflexivity|]. split; [reflexivity|]. split; [reflexivity|].
  split; [reflexivity|].
  split; intros out log H; vm_compute in H; discriminate H.
Qed.

(** ** What the share button does not depend on *)

(** C9. The result of [on_page_content] does not depend on the title of the
    page, on its front matter, or on any entry of the configuration other
    than [site_url]: two calls on the same HTML that agree on the source
    path, on the page URL and on [site_url] give the same result and the same
    log. *)
Theorem share_button_ignores_title (html : string) (page page' : Page)
    (config config' : gmap string pyval) (files files' : list File) :
  src_uri (file page) = src_uri (file page') →
  url page = url page' →
  config !! "site_url" = config' !! "site_url" →
  on_page_content html page config files = on_page_content html page' config' files'.
Proof.
  intros Hpath Hurl Hcfg. unfold on_page_content. rewrite <- Hpath.
  destruct (Str.startswith (src_uri (file page)) "posts/"); [|done].
  unfold content_locals, Py.get. rewrite <- Hcfg, <- Hurl.
  by destruct (config !! "site_url") as [[|s]|].
Qed.

Lemma share_button_ignores_title_witness :
  title Sample.hello ≠ title Sample.markup ∧
  meta Sample.hello ≠ meta Sample.markup ∧
  on_page_content "<p>Hi</p>" Sample.hello Sample.blog_example [] =
  on_page_content "<p>Hi</p>"
    {| file := file Sample.hello; url := url Sample.hello;
       title := title Sample.markup; meta := meta Sample.markup |}
    Sample.no_description [].
Proof.
  split; [discriminate|]. split.
  - intros H.
    apply (f_equal (λ o, match o with Some m => m !! "description" | None => None end)) in H.
    vm_compute in H. discriminate H.
  - apply share_button_ignores_title; reflexivity.
Defined.

(** ** Totality *)

(** Both hooks return whenever the configuration has no [site_url] or has a
    string there. *)
Lemma hooks_return (html output : string) (page : Page) (config : gmap string pyval)
    (files : list File) :
  site_url_is_str config →
  (∃ html' log, on_page_content html page config files = (Ok html', log)) ∧
  (∃ output' log, on_post_page output page config = (Ok output', log)).
Proof.
  intros Hurl. unfold on_page_content, on_post_page.
  destruct (content_locals_returns page config Hurl) as (lc & -> & _).
  destruct (post_locals_returns page config Hurl) as (lp & -> & _).
  destruct (Str.startswith (src_uri (file page)) "posts/").
  - split; [by eexists _, _|].
    destruct (Str.contains "<head>" output); by eexists _, _.
  - split; by eexists _, _.
Qed.

(** On a post they raise when [site_url] is there and holds [None]. *)
Lemma hooks_raise (html output : string) (page : Page) (config : gmap string pyval)
    (files : list File) :
  Str.startswith (src_uri (file page)) "posts/" = true →
  config !! "site_url" = Some PyNone →
  on_page_content html page config files = (Raise (AttributeError "rstrip"), []) ∧
  on_post_page output page config = (Raise (AttributeError "rstrip"), []).
Proof.
  intros Hpost Hnone. unfold on_page_content, on_post_page.
  by rewrite Hpost, (content_locals_raises page config Hnone),
    (post_locals_raises page config Hnone).
Qed.

(** A description that is there and holds [None] is written as the text
    ["None"]. *)
Lemma unset_description_written :
  ∃ ls, post_locals Sample.untitled Sample.no_description = (Ok ls, []) ∧
    p_page_description ls = PyNone ∧
    ∃ before after,
      p_og_tags ls = before +:+ meta_tag "property" "og:description" "None" +:+ after.
Proof.
  eexists. split; [reflexivity|]. split; [reflexivity|].
  eexists (String.concat nl
             [""; "    <!-- Open Graph / LinkedIn meta tags -->";
              meta_tag "property" "og:type" "article";
              meta_tag "property" "og:url" "https://blog.example/posts/a/";
              meta_tag "property" "og:title" "My Blog"] +:+ nl), _.
  reflexivity.
Qed.

(** C10. A post under the configuration of a site that sets no [site_url]
    (MkDocs keeps the key, with [None]): [get] returns [None], not its
    default, [rstrip] is looked up on it, and both hooks raise instead of
    returning a string. *)
Theorem hooks_raise_without_site_url :
  Sample.unset !! "site_url" = Some PyNone ∧
  on_page_content "<p>Hi</p>" Sample.untitled Sample.unset []
    = (Raise (AttributeError "rstrip"), []) ∧
  on_post_page Sample.document Sample.untitled Sample.unset
    = (Raise (AttributeError "rstrip"), []).
Proof. split; [reflexivity|]. split; reflexivity. Qed.

(** * Further properties of the hooks *)

(** ** More on strings *)

Section MoreStrings.

Implicit Types s t u p q old new pre post : string.

Lemma length_zero_inv s : String.length s = 0 → s = "".
Proof. by destruct s. Qed.

Lemma app_length_neq s t : t ≠ "" → s +:+ t ≠ s.
Proof.
  intros Ht E. apply (f_equal String.length) in E. rewrite length_app in E.
  destruct t; [done|]. simpl in E. lia.
Qed.

(** Two splits of one string: the shorter left part is a prefix of the
    longer one. *)
Lemma app_eq_app_le p a q b :
  p +:+ a = q +:+ b → (String.length p ≤ String.length q)%nat →
  ∃ u, q = p +:+ u ∧ a = u +:+ b.
Proof.
  revert q. induction p as [|c p IH]; intros q E Hlen.
  - exists q. by rewrite !app_nil_l in *.
  - destruct q as [|d q]; [simpl in Hlen; lia|].
    rewrite !app_cons in E. injection E as -> E.
    destruct (IH q E) as (u & -> & ->); [simpl in Hlen; lia|].
    by exists u.
Qed.

Lemma app_eq_app_length p a q b :
  p +:+ a = q +:+ b → String.length p = String.length q → p = q ∧ a = b.
Proof.
  intros E Hlen. destruct (app_eq_app_le p a q b E) as (u & Hq & Ha); [lia|].
  assert (u = "") as ->.
  { apply length_zero_inv. apply (f_equal String.length) in Hq.
    rewrite length_app in Hq. lia. }
  by rewrite app_nil_r in Hq.
Qed.

(** Whether [old] is a prefix is decided by the first [length old]
    characters. *)
Lemma prefix_app_long old x r :
  (String.length old ≤ String.length x)%nat →
  String.prefix old (x +:+ r) = String.prefix old x.
Proof.
  revert x. induction old as [|c old IH]; intros x Hlen.
  - by rewrite !prefix_nil.
  - destruct x as [|d x]; [simpl in Hlen; lia|].
    rewrite app_cons, !prefix_cons. destruct (ascii_dec c d); [|done].
    apply IH. simpl in Hlen. lia.
Qed.

(** An occurrence that is the leftmost stays the leftmost when the text
    after it changes. *)
Lemma leftmost_extend old pre post post2 :
  (∀ pre' post', pre +:+ old +:+ post = pre' +:+ old +:+ post' →
     (String.length pre ≤ String.length pre')%nat) →
  ∀ pre' post', pre +:+ old +:+ post2 = pre' +:+ old +:+ post' →
    (String.length pre ≤ String.length pre')%nat.
Proof.
  intros Hmin pre' post' E.
  destruct (le_lt_dec (String.length pre) (String.length pre')) as [|Hlt]; [done|].
  destruct (app_eq_app_le pre' (old +:+ post') pre (old +:+ post2)) as (u & -> & Hu);
    [done | lia |].
  assert (Hp : String.prefix old (u +:+ old +:+ post) = true).
  { rewrite <- app_assoc, prefix_app_long by (rewrite length_app; lia).
    rewrite <- (prefix_app_long old (u +:+ old) post2) by (rewrite length_app; lia).
    by rewrite app_assoc, <- Hu, prefix_app. }
  apply prefix_inv in Hp as [q Hq].
  apply (Hmin pre' q). by rewrite app_assoc, Hq.
Qed.

(** [replace] at an occurrence known to be the leftmost. *)
Lemma replace_first_leftmost old new pre post :
  (∀ pre' post', pre +:+ old +:+ post = pre' +:+ old +:+ post' →
     (String.length pre ≤ String.length pre')%nat) →
  Str.replace_first (pre +:+ old +:+ post) old new = pre +:+ new +:+ post.
Proof.
  intros Hmin.
  destruct (replace_first_present (pre +:+ old +:+ post) old new (contains_intro old pre post))
    as (p & q & E & -> & Hp).
  destruct (app_eq_app_length pre (old +:+ post) p (old +:+ q) E) as [-> Hq].
  { apply Nat.le_antisymm; [by apply (Hmin p q) | by apply (Hp pre post)]. }
  by apply (inj (String.append old)) in Hq as ->.
Qed.

Lemma rstrip_slashes k : Str.rstrip (replicate_char k "/") "/" = "".
Proof. induction k as [|k IH]; [done|]. simpl replicate_char. by rewrite rstrip_cons, IH. Qed.

(** Slashes added at the end are stripped with the others. *)
Lemma rstrip_app_slashes s k :
  Str.rstrip (s +:+ replicate_char k "/") "/" = Str.rstrip s "/".
Proof.
  induction s as [|c s IH]; [by rewrite app_nil_l, rstrip_slashes|].
  by rewrite app_cons, !rstrip_cons, IH.
Qed.

(** Slashes added at the front are stripped with the others. *)
Lemma lstrip_app_slashes s k :
  Str.lstrip (replicate_char k "/" +:+ s) "/" = Str.lstrip s "/".
Proof. induction k as [|k IH]; [done|]. simpl replicate_char. by rewrite app_cons, lstrip_cons. Qed.

Lemma quote_app s t safe :
  Urllib.quote (s +:+ t) safe = Urllib.quote s safe +:+ Urllib.quote t safe.
Proof.
  induction s as [|c s IH]; [done|].
  by rewrite app_cons, !quote_cons, IH, app_assoc.
Qed.

End MoreStrings.

(** ** More on the local variables *)

Lemma share_button_template_length link :
  (0 < String.length (share_button_template link))%nat.
Proof.
  assert (∃ t, share_button_template link = String "010" t) as [t ->]
    by (eexists; reflexivity).
  simpl. lia.
Qed.

(** What the locals of [on_post_page] satisfy whenever they are assigned. *)
Lemma post_locals_inv (page : Page) (config : gmap string pyval) ls log :
  post_locals page config = (Ok ls, log) →
  site_url_is_str config ∧ log = [] ∧
  p_site_url ls = stripped_site_url config ∧
  p_page_url ls =
    (if Str.nonempty (p_site_url ls)
     then p_site_url ls +:+ "/" +:+ url page else url page) ∧
  p_og_tags ls =
    og_tags_template (p_page_url ls) (p_page_title ls) (p_page_description ls)
      (Py.get config "site_name" (PyStr "")).
Proof.
  intros H. assert (Hurl : site_url_is_str config).
  { intros Hnone. by rewrite (post_locals_raises page config Hnone) in H. }
  destruct (post_locals_returns page config Hurl) as (ls' & Hls & Hs & Hp & _ & _ & Ht).
  rewrite Hls in H. by injection H as <- <-.
Qed.

Lemma content_locals_url (page : Page) (config : gmap string pyval) ls log :
  content_locals page config = (Ok ls, log) →
  c_site_url ls = stripped_site_url config ∧
  c_page_url ls =
    (if Str.nonempty (c_site_url ls)
     then c_site_url ls +:+ "/" +:+ Str.lstrip (url page) "/" else url page).
Proof.
  intros H. destruct (content_locals_inv page config ls log H) as (Hurl & _).
  destruct (content_locals_returns page config Hurl) as (ls' & Hls & Hs & Hp & _).
  rewrite Hls in H. by injection H as <- <-.
Qed.

(** The steps of [on_page_content] on a post, once the locals are known. *)
Lemma on_page_content_post html page config files ls :
  Str.startswith (src_uri (file page)) "posts/" = true →
  content_locals page config = (Ok ls, []) →
  on_page_content html page config files =
    (Ok (html +:+ c_share_button_html ls),
     ["Added LinkedIn share button to: " +:+ src_uri (file page)]).
Proof. intros Hpost Hls. unfold on_page_content. by rewrite Hpost, Hls. Qed.

(** The steps of [on_post_page] on a post, once the locals are known. *)
Lemma on_post_page_post output page config ls :
  Str.startswith (src_uri (file page)) "posts/" = true →
  post_locals page config = (Ok ls, []) →
  on_post_page output page config =
    if Str.contains "<head>" output
    then (Ok (Str.replace_first output "<head>" ("<head>" +:+ p_og_tags ls)),
          ["Added Open Graph meta tags to: " +:+ src_uri (file page)])
    else (Ok output, []).
Proof.
  intros Hpost Hls. unfold on_post_page. rewrite Hpost, Hls.
  unfold Py.bind. by destruct (Str.contains "<head>" output).
Qed.

(** ** The log and the change *)

(** X1. Whenever [on_page_content] returns, it has logged a line exactly
    when it has changed the HTML, and it logs at most the one line that names
    the source path. *)
Theorem content_logged_iff_changed (html : string) (page : Page)
    (config : gmap string pyval) (files : list File) (out : string) (log : list string) :
  on_page_content html page config files = (Ok out, log) →
  (log = [] ↔ out = html) ∧
  (log = [] ∨ log = ["Added LinkedIn share button to: " +:+ src_uri (file page)]).
Proof.
  destruct (Str.startswith (src_uri (file page)) "posts/") eqn:Hpost.
  - destruct (content_locals page config) as [[ls|e] l] eqn:Hls.
    + destruct (content_locals_inv page config ls l Hls) as (_ & -> & _ & _ & Hhtml).
      rewrite (on_page_content_post html page config files ls Hpost Hls).
      intros [= <- <-]. split; [|by right]. split; [done|].
      intros E. apply app_length_neq in E; [done|].
      pose proof (share_button_template_length (c_linkedin_share_url ls)) as Hlen.
      rewrite Hhtml. intros Hempty. rewrite Hempty in Hlen. simpl in Hlen. lia.
    + unfold on_page_content. by rewrite Hpost, Hls.
  - unfold on_page_content. rewrite Hpost. intros [= <- <-]. split; [done|by left].
Qed.

Lemma content_logged_iff_changed_witness :
  ∃ out log,
    on_page_content "<p>Hi</p>" Sample.hello Sample.blog_example [] = (Ok out, log) ∧
    (log = [] ↔ out = "<p>Hi</p>") ∧
    log = ["Added LinkedIn share button to: posts/hello.md"].
Proof.
  eexists _, _. split; [reflexivity|]. split; [|reflexivity].
  apply (content_logged_iff_changed "<p>Hi</p>" Sample.hello Sample.blog_example []).
  reflexivity.
Defined.

(** X2. Whenever [on_post_page] returns, it has logged a line exactly when it
    has changed the output, and it logs at most the one line that names the
    source path. *)
Theorem post_logged_iff_changed (output : string) (page : Page)
    (config : gmap string pyval) (out : string) (log : list string) :
  on_post_page output page config = (Ok out, log) →
  (log = [] ↔ out = output) ∧
  (log = [] ∨ log = ["Added Open Graph meta tags to: " +:+ src_uri (file page)]).
Proof.
  destruct (Str.startswith (src_uri (file page)) "posts/") eqn:Hpost.
  - destruct (post_locals page config) as [[ls|e] l] eqn:Hls.
    + destruct (post_locals_inv page config ls l Hls) as (_ & -> & _ & _ & Htags).
      rewrite (on_post_page_post output page config ls Hpost Hls).
      destruct (Str.contains "<head>" output) eqn:Hhead.
      * intros [= <- <-]. split; [|by right]. split; [done|].
        destruct (replace_first_present output "<head>" ("<head>" +:+ p_og_tags ls) Hhead)
          as (pre & post & Hsplit & -> & _).
        intros E. apply (f_equal String.length) in E.
        rewrite Hsplit, !length_app, Htags in E.
        pose proof (og_tags_template_length (p_page_url ls) (p_page_title ls)
                      (p_page_description ls) (Py.get config "site_name" (PyStr ""))).
        lia.
      * intros [= <- <-]. split; [done|by left].
    + unfold on_post_page. by rewrite Hpost, Hls.
  - unfold on_post_page. rewrite Hpost. intros [= <- <-]. split; [done|by left].
Qed.

Lemma post_logged_iff_changed_witness :
  ∃ out log,
    on_post_page Sample.document Sample.hello Sample.blog_example = (Ok out, log) ∧
    (log = [] ↔ out = Sample.document) ∧
    log = ["Added Open Graph meta tags to: posts/hello.md"].
Proof.
  eexists _, _. split; [reflexivity|]. split; [|reflexivity].
  apply (post_logged_iff_changed Sample.document Sample.hello Sample.blog_example).
  reflexivity.
Defined.

(** ** Inserting twice, and taking the insertion back *)

(** X4. [on_post_page] is not idempotent: run again on its own result, it
    inserts the block a second time, after the same ["<head>"], so that the
    document then holds the block twice in a row. *)
Theorem og_tags_inserted_twice (output : string) (page : Page)
    (config : gmap string pyval) :
  Str.startswith (src_uri (file page)) "posts/" = true →
  site_url_is_str config →
  Str.contains "<head>" output = true →
  ∃ ls pre post,
    post_locals page config = (Ok ls, []) ∧
    output = pre +:+ "<head>" +:+ post ∧
    fst (on_post_page output page config) =
      Ok (pre +:+ "<head>" +:+ p_og_tags ls +:+ post) ∧
    fst (on_post_page (pre +:+ "<head>" +:+ p_og_tags ls +:+ post) page config) =
      Ok (pre +:+ "<head>" +:+ p_og_tags ls +:+ p_og_tags ls +:+ post).
Proof.
  intros Hpost Hurl Hhead.
  destruct (post_locals_returns page config Hurl) as (ls & Hls & _).
  destruct (replace_first_present output "<head>" ("<head>" +:+ p_og_tags ls) Hhead)
    as (pre & post & Hsplit & Hrepl & Hmin).
  exists ls, pre, post. split; [done|]. split; [done|].
  rewrite !(on_post_page_post _ page config ls Hpost Hls), Hhead, contains_intro.
  simpl fst. split; f_equal.
  - by rewrite Hrepl, app_assoc.
  - rewrite replace_first_leftmost; [by rewrite app_assoc|].
    apply (leftmost_extend "<head>" pre post). by rewrite <- Hsplit.
Qed.

Lemma og_tags_inserted_twice_witness :
  ∃ ls pre post,
    post_locals Sample.hello Sample.blog_example = (Ok ls, []) ∧
    Sample.document = pre +:+ "<head>" +:+ post ∧
    fst (on_post_page (pre +:+ "<head>" +:+ p_og_tags ls +:+ post)
           Sample.hello Sample.blog_example) =
      Ok (pre +:+ "<head>" +:+ p_og_tags ls +:+ p_og_tags ls +:+ post).
Proof.
  destruct (og_tags_inserted_twice Sample.document Sample.hello Sample.blog_example)
    as (ls & pre & post & Hls & Hsplit & _ & Htwice).
  - reflexivity.
  - vm_compute. discriminate.
  - reflexivity.
  - exists ls, pre, post. split; [exact Hls|]. split; [exact Hsplit|exact Htwice].
Defined.

(** X5. The insertion of [on_post_page] can be taken back: replacing, in its
    result, the first ["<head>"] followed by the block with ["<head>"] alone
    gives the output it was called on. *)
Theorem og_tags_insertion_undone (output : string) (page : Page)
    (config : gmap string pyval) :
  Str.startswith (src_uri (file page)) "posts/" = true →
  site_url_is_str config →
  ∃ ls out,
    post_locals page config = (Ok ls, []) ∧
    fst (on_post_page output page config) = Ok out ∧
    Str.replace_first out ("<head>" +:+ p_og_tags ls) "<head>" = output.
Proof.
  intros Hpost Hurl.
  destruct (post_locals_returns page config Hurl) as (ls & Hls & _ & _ & _ & _ & Htags).
  exists ls. rewrite (on_post_page_post output page config ls Hpost Hls).
  destruct (Str.contains "<head>" output) eqn:Hhead.
  - destruct (replace_first_present output "<head>" ("<head>" +:+ p_og_tags ls) Hhead)
      as (pre & post & Hsplit & Hrepl & Hmin).
    eexists. split; [done|]. split; [reflexivity|].
    rewrite Hrepl, replace_first_leftmost; [done|].
    intros pre' post'. rewrite !(app_assoc "<head>").
    apply (leftmost_extend "<head>" pre post). by rewrite <- Hsplit.
  - exists output. split; [done|]. split; [done|].
    apply replace_first_absent.
    destruct (Str.contains ("<head>" +:+ p_og_tags ls) output) eqn:Hc; [|done].
    apply contains_inv in Hc as (pre & post & ->).
    by rewrite app_assoc, contains_intro in Hhead.
Qed.

Lemma og_tags_insertion_undone_witness :
  ∃ ls out,
    post_locals Sample.hello Sample.blog_example = (Ok ls, []) ∧
    fst (on_post_page Sample.document Sample.hello Sample.blog_example) = Ok out ∧
    Str.replace_first out ("<head>" +:+ p_og_tags ls) "<head>" = Sample.document.
Proof.
  apply (og_tags_insertion_undone Sample.document Sample.hello Sample.blog_example).
  - reflexivity.
  - vm_compute. discriminate.
Defined.

(** ** Redundant slashes *)

Lemma stripped_with_site_url config s :
  stripped_site_url (with_site_url config s) = Str.rstrip s "/".
Proof. unfold stripped_site_url, with_site_url. by rewrite lookup_insert_eq. Qed.

Lemma with_site_url_is_str config s : site_url_is_str (with_site_url config s).
Proof. unfold site_url_is_str, with_site_url. by rewrite lookup_insert_eq. Qed.

Lemma get_with_site_url config s key default :
  key ≠ "site_url" →
  Py.get (with_site_url config s) key default = Py.get config key default.
Proof. intros Hne. unfold Py.get, with_site_url. by rewrite lookup_insert_ne. Qed.

(** X6. [on_page_content] takes no notice of slashes in excess: under a site
    URL that is more than slashes, adding slashes at the end of the site URL
    and at the front of the page URL changes neither its result nor its
    log. *)
Theorem content_ignores_extra_slashes (html : string) (page : Page)
    (config : gmap string pyval) (files : list File) (s : string) (j k : nat) :
  config !! "site_url" = Some (PyStr s) →
  Str.rstrip s "/" ≠ "" →
  on_page_content html
    (with_url page (replicate_char j "/" +:+ url page))
    (with_site_url config (s +:+ replicate_char k "/")) files
  = on_page_content html page config files.
Proof.
  intros Hcfg Hs.
  assert (Hurl : site_url_is_str config) by (unfold site_url_is_str; by rewrite Hcfg).
  assert (Hsite : stripped_site_url config = Str.rstrip s "/").
  { unfold stripped_site_url. by rewrite Hcfg. }
  assert (Hne : Str.nonempty (Str.rstrip s "/") = true) by (by destruct (Str.rstrip s "/")).
  unfold on_page_content. simpl file.
  destruct (Str.startswith (src_uri (file page)) "posts/"); [|done].
  destruct (content_locals_returns page config Hurl)
    as (l1 & -> & Hs1 & Hp1 & _ & He1 & Hl1 & Hh1).
  destruct (content_locals_returns (with_url page (replicate_char j "/" +:+ url page))
              (with_site_url config (s +:+ replicate_char k "/"))
              (with_site_url_is_str _ _))
    as (l2 & -> & Hs2 & Hp2 & _ & He2 & Hl2 & Hh2).
  rewrite stripped_with_site_url, rstrip_app_slashes in Hs2.
  rewrite Hs2, Hne in Hp2. simpl url in Hp2. rewrite lstrip_app_slashes in Hp2.
  rewrite Hs1, Hsite, Hne in Hp1.
  simpl. by rewrite Hh1, Hh2, Hl1, Hl2, He1, He2, Hp1, Hp2.
Qed.

Lemma content_ignores_extra_slashes_witness :
  on_page_content "<p>Hi</p>"
    (with_url Sample.untitled ("//" +:+ url Sample.untitled))
    (with_site_url Sample.blog_example ("https://blog.example" +:+ "///")) []
  = on_page_content "<p>Hi</p>" Sample.untitled Sample.blog_example [].
Proof.
  apply (content_ignores_extra_slashes "<p>Hi</p>" Sample.untitled Sample.blog_example []
           "https://blog.example" 2 3).
  - reflexivity.
  - vm_compute. discriminate.
Defined.

(** X7. [on_post_page] takes no notice of slashes added at the end of the
    site URL: neither its result nor its log changes. *)
Theorem post_ignores_trailing_slashes (output : string) (page : Page)
    (config : gmap string pyval) (s : string) (k : nat) :
  config !! "site_url" = Some (PyStr s) →
  on_post_page output page (with_site_url config (s +:+ replicate_char k "/"))
  = on_post_page output page config.
Proof.
  intros Hcfg. unfold on_post_page.
  destruct (Str.startswith (src_uri (file page)) "posts/"); [|done].
  assert (post_locals page (with_site_url config (s +:+ replicate_char k "/"))
          = post_locals page config) as ->; [|done].
  unfold post_locals.
  assert (Py.get (with_site_url config (s +:+ replicate_char k "/")) "site_url" (PyStr "")
          = PyStr (s +:+ replicate_char k "/")) as ->.
  { unfold Py.get, with_site_url. by rewrite lookup_insert_eq. }
  assert (Py.get config "site_url" (PyStr "") = PyStr s) as ->.
  { unfold Py.get. by rewrite Hcfg. }
  rewrite !get_with_site_url by done.
  unfold Py.rstrip. by rewrite rstrip_app_slashes.
Qed.

Lemma post_ignores_trailing_slashes_witness :
  on_post_page Sample.document Sample.hello
    (with_site_url Sample.blog_example ("https://blog.example" +:+ "//"))
  = on_post_page Sample.document Sample.hello Sample.blog_example.
Proof.
  apply (post_ignores_trailing_slashes Sample.document Sample.hello Sample.blog_example
           "https://blog.example" 2).
  reflexivity.
Defined.

(** ** The share link *)

Section ShareLink.

Local Ltac every_byte c := destruct c as [[] [] [] [] [] [] [] []].

Lemma share_prefix_alphabet c :
  Str.mem c "https://www.linkedin.com/sharing/share-offsite/?url=" = true →
  Str.mem c (Urllib.ALWAYS_SAFE +:+ "%:/?=") = true.
Proof. every_byte c; vm_compute; congruence. Qed.

Lemma quote_alphabet_wider c :
  Str.mem c ("%" +:+ Urllib.ALWAYS_SAFE) = true →
  Str.mem c (Urllib.ALWAYS_SAFE +:+ "%:/?=") = true.
Proof. every_byte c; vm_compute; congruence. Qed.

Lemma special_not_in_link_alphabet c :
  Str.mem c HTML_SPECIAL = true →
  Str.mem c (Urllib.ALWAYS_SAFE +:+ "%:/?=") = false.
Proof. every_byte c; vm_compute; congruence. Qed.

(** X8. The share link that [on_page_content] writes into the [href] of the
    anchor is made of unreserved characters and of ['%'], [':'], ['/'], ['?']
    and ['='] only, whatever the site URL and the page URL hold: it has no
    quote, no angle bracket and no ampersand, so it cannot close the
    attribute. *)
Theorem share_link_alphabet (page : Page) (config : gmap string pyval)
    (ls : ContentLocals) (log : list string) :
  content_locals page config = (Ok ls, log) →
  (∀ c, Str.mem c (c_linkedin_share_url ls) = true →
        Str.mem c (Urllib.ALWAYS_SAFE +:+ "%:/?=") = true) ∧
  (∀ c, Str.mem c HTML_SPECIAL = true → Str.mem c (c_linkedin_share_url ls) = false).
Proof.
  intros (_ & _ & Henc & Hlink & _)%content_locals_inv.
  assert (Hall : ∀ c, Str.mem c (c_linkedin_share_url ls) = true →
                      Str.mem c (Urllib.ALWAYS_SAFE +:+ "%:/?=") = true).
  { intros c. rewrite Hlink, Henc, mem_app. intros [H|H]%orb_true_iff.
    - by apply share_prefix_alphabet.
    - by apply quote_alphabet_wider, (quote_alphabet (c_page_url ls)). }
  split; [done|]. intros c Hc.
  destruct (Str.mem c (c_linkedin_share_url ls)) eqn:Hm; [|done].
  apply Hall in Hm. by rewrite (special_not_in_link_alphabet c Hc) in Hm.
Qed.

Lemma share_link_alphabet_witness :
  ∃ ls, content_locals (with_url Sample.hello ("/a" +:+ dq +:+ "><b>&'")) Sample.blog_example
        = (Ok ls, []) ∧
    Str.mem "034" (c_page_url ls) = true ∧
    ∀ c, Str.mem c HTML_SPECIAL = true → Str.mem c (c_linkedin_share_url ls) = false.
Proof.
  eexists. split; [reflexivity|]. split; [reflexivity|].
  eapply (share_link_alphabet (with_url Sample.hello ("/a" +:+ dq +:+ "><b>&'"))
            Sample.blog_example).
  reflexivity.
Defined.

(** X10. When the site URL is joined, the encoded URL of [on_page_content]
    is the encoding of the stripped site URL, then ["%2F"] for the joining
    slash, then the encoding of the page URL without its leading slashes. *)
Theorem encoded_url_joined (page : Page) (config : gmap string pyval)
    (ls : ContentLocals) (log : list string) :
  content_locals page config = (Ok ls, log) →
  Str.nonempty (c_site_url ls) = true →
  c_encoded_url ls =
    Urllib.quote (c_site_url ls) "" +:+ "%2F" +:+
    Urllib.quote (Str.lstrip (url page) "/") "".
Proof.
  intros H Hne. destruct (content_locals_url page config ls log H) as (_ & Hpage).
  destruct (content_locals_inv page config ls log H) as (_ & _ & Henc & _).
  rewrite Henc, Hpage, Hne. by rewrite !quote_app.
Qed.

Lemma encoded_url_joined_witness :
  ∃ ls, content_locals Sample.hello Sample.blog_example = (Ok ls, []) ∧
    c_encoded_url ls =
      Urllib.quote "https://blog.example" "" +:+ "%2F" +:+ Urllib.quote "posts/hello/" "".
Proof.
  eexists. split; [reflexivity|].
  eapply (encoded_url_joined Sample.hello Sample.blog_example); reflexivity.
Defined.

(** X11. The fragment of [on_page_content] tells the absolute URL: two posts
    that get the same fragment have the same absolute URL. *)
Theorem share_button_tells_url (page1 page2 : Page) (config1 config2 : gmap string pyval)
    (ls1 ls2 : ContentLocals) (log1 log2 : list string) :
  content_locals page1 config1 = (Ok ls1, log1) →
  content_locals page2 config2 = (Ok ls2, log2) →
  c_share_button_html ls1 = c_share_button_html ls2 →
  c_page_url ls1 = c_page_url ls2.
Proof.
  intros (_ & _ & He1 & Hl1 & Hh1)%content_locals_inv
         (_ & _ & He2 & Hl2 & Hh2)%content_locals_inv Hsame.
  destruct share_button_template_anchor as (before & after & _ & _ & Hanchor).
  rewrite Hh1, Hh2, !Hanchor in Hsame.
  do 3 apply (inj (String.append _)) in Hsame.
  assert (Hlen : String.length (c_linkedin_share_url ls1)
                 = String.length (c_linkedin_share_url ls2)).
  { apply (f_equal String.length) in Hsame. rewrite !length_app in Hsame. lia. }
  destruct (app_eq_app_length _ _ _ _ Hsame Hlen) as [Hlink _].
  rewrite Hl1, Hl2 in Hlink. apply (inj (String.append _)) in Hlink.
  rewrite He1, He2 in Hlink. apply (f_equal Urllib.unquote) in Hlink.
  by rewrite !unquote_quote in Hlink.
Qed.

Lemma share_button_tells_url_witness :
  ∃ ls1 ls2,
    content_locals Sample.hello Sample.blog_example = (Ok ls1, []) ∧
    content_locals Sample.hello Sample.my_blog = (Ok ls2, []) ∧
    c_page_url ls1 = c_page_url ls2.
Proof.
  eexists _, _. split; [reflexivity|]. split; [reflexivity|].
  eapply (share_button_tells_url Sample.hello Sample.hello Sample.blog_example Sample.my_blog);
    reflexivity.
Defined.

End ShareLink.

(** ** The description of [on_post_page] *)

(** X9. The description that [on_post_page] writes is the ["description"]
    entry of the front matter whenever the page has front matter with that
    key, whatever the entry holds (an empty string stays an empty string);
    with no [meta] attribute, empty front matter or no such key it is
    [config.get("site_description", "")].  That value is the content of both
    [og:description] and [twitter:description]. *)
Theorem post_description_resolved (page : Page) (config : gmap string pyval) :
  site_url_is_str config →
  ∃ ls, post_locals page config = (Ok ls, []) ∧
    (∀ m v, meta page = Some m → m !! "description" = Some v →
       p_page_description ls = v) ∧
    (meta page = None ∨ meta page = Some ∅ ∨
     (∃ m, meta page = Some m ∧ m !! "description" = None) →
       p_page_description ls = Py.get config "site_description" (PyStr "")) ∧
    (∃ before between after,
       p_og_tags ls =
         before +:+
         meta_tag "property" "og:description" (Py.format_value (p_page_description ls)) +:+
         between +:+
         meta_tag "name" "twitter:description" (Py.format_value (p_page_description ls)) +:+
         after).
Proof.
  intros Hurl.
  destruct (post_locals_returns page config Hurl) as (ls & Hls & _ & _ & _ & Hd & Htags).
  exists ls. split; [done|]. split; [|split].
  - intros m v Hm Hv. rewrite Hd. unfold has_meta, meta_get, Py.dict_truthy, Py.get.
    rewrite Hm, Hv. rewrite bool_decide_eq_false_2; [done|].
    intros ->. by rewrite lookup_empty in Hv.
  - rewrite Hd. unfold has_meta, meta_get, Py.dict_truthy. unfold Py.get at 1.
    intros [Hm|[Hm|(m & Hm & Hv)]]; rewrite Hm; [done| |].
    + by rewrite bool_decide_eq_true_2.
    + rewrite Hv. by destruct (negb _).
  - rewrite Htags, og_tags_template_tags.
    exists (String.concat nl
              [""; "    <!-- Open Graph / LinkedIn meta tags -->";
               meta_tag "property" "og:type" "article";
               meta_tag "property" "og:url" (p_page_url ls);
               meta_tag "property" "og:title" (Py.format_value (p_page_title ls))] +:+ nl),
           (nl +:+ String.concat nl
              [meta_tag "property" "og:site_name"
                 (Py.format_value (Py.get config "site_name" (PyStr "")));
               "    ";
               "    <!-- Twitter Card meta tags (also used by LinkedIn) -->";
               meta_tag "name" "twitter:card" "summary_large_image";
               meta_tag "name" "twitter:title" (Py.format_value (p_page_title ls))] +:+ nl),
           (nl +:+ "").
    unfold String.concat. rewrite !app_assoc. reflexivity.
Qed.

Lemma post_description_resolved_witness :
  site_url_is_str Sample.my_blog ∧
  ∃ ls, post_locals Sample.hello Sample.my_blog = (Ok ls, []) ∧
    p_page_description ls = PyStr "A first post".
Proof.
  assert (H : site_url_is_str Sample.my_blog) by (vm_compute; discriminate).
  split; [exact H|].
  destruct (post_description_resolved Sample.hello Sample.my_blog H)
    as (ls & Hls & Hmeta & _).
  exists ls. split; [exact Hls|].
  apply (Hmeta {[ "description" := PyStr "A first post" ]}); reflexivity.
Defined.

(** ** Where the two URLs agree *)

(** X12. The URL of [on_post_page] and the URL of [on_page_content] are the
    same exactly when nothing is joined (the site URL is missing, empty or
    made of slashes) or the page URL does not begin with a slash. *)
Theorem page_urls_agree_iff (page : Page) (config : gmap string pyval) :
  site_url_is_str config →
  ∃ lc lp,
    content_locals page config = (Ok lc, []) ∧
    post_locals page config = (Ok lp, []) ∧
    (c_page_url lc = p_page_url lp ↔
       Str.nonempty (stripped_site_url config) = false ∨
       String.prefix "/" (url page) = false).
Proof.
  intros Hurl.
  destruct (content_locals_returns page config Hurl) as (lc & Hlc & Hcs & Hcp & _).
  destruct (post_locals_returns page config Hurl) as (lp & Hlp & Hps & Hpp & _).
  exists lc, lp. split; [done|]. split; [done|].
  rewrite Hcp, Hpp, Hcs, Hps.
  destruct (Str.nonempty (stripped_site_url config)); [|by intuition].
  split.
  - intros E. right. do 2 apply (inj (String.append _)) in E.
    rewrite <- E. apply lstrip_no_leading.
  - intros [|H]; [done|]. by rewrite lstrip_no_slash.
Qed.

Lemma page_urls_agree_iff_witness :
  site_url_is_str Sample.blog_example ∧
  ∃ lc lp,
    content_locals Sample.untitled Sample.blog_example = (Ok lc, []) ∧
    post_locals Sample.untitled Sample.blog_example = (Ok lp, []) ∧
    c_page_url lc = p_page_url lp.
Proof.
  assert (H : site_url_is_str Sample.blog_example) by (vm_compute; discriminate).
  split; [exact H|].
  destruct (page_urls_agree_iff Sample.untitled Sample.blog_example H)
    as (lc & lp & Hlc & Hlp & Hiff).
  exists lc, lp. split; [exact Hlc|]. split; [exact Hlp|].
  apply Hiff. right. reflexivity.
Defined.
